(** * SBTi pathway extraction: a shallow embedding of the two extraction scripts

    The repository holds two revisions of one spreadsheet-to-SQL extractor:

    - [scripts/extract-sbti-pathways-v2.py]  (module [V2] below), and
    - [scripts/extract-sbti-pathways.py]     (module [V1] below).

    Both read the [Database] sheet of an openpyxl workbook, find the year
    columns in the header row, walk the data rows and append one SQL INSERT
    per usable (row, year) cell.  The worksheet is modelled by the three
    things the scripts ask of it ([max_row], [max_column] and the value of
    the cell at a 1-based (row, column)); cell values are Python values;
    Python's [float] is Rocq's primitive binary64 [float]; the two [dict]
    literals are [gmap]s; the [for] loops are folds over the ranges the
    scripts iterate; [sql_statements.append] is list append.

    A Python [str] is held as the Rocq [string] of its UTF-8 bytes; see
    the section on text below. *)

From Stdlib Require Import ZArith List String Ascii Bool Sorted Lia.
From Stdlib Require Import Floats.
From stdpp Require Import gmap strings.
Import ListNotations.

Local Open Scope string_scope.
Local Open Scope list_scope.
Local Open Scope Z_scope.

(** ** Python values held by spreadsheet cells *)

(** [openpyxl] hands back [None], [str], [int], [float] or [bool] as
    [cell.value], and for a cell that holds a date, a time or a duration a
    [datetime], [date], [time] or [timedelta] object.  A [date] is given by
    its day number, a [time] by its microseconds since midnight, a
    [timedelta] by its length in microseconds. *)
Inductive pyval : Type :=
| VNone
| VStr (s : string)
| VInt (n : Z)
| VFloat (x : float)
| VBool (b : bool)
| VDatetime (stamp : Z)
| VDate (day : Z)
| VTime (microseconds : Z)
| VTimedelta (microseconds : Z).

(** [bool(v)]: the truth value used by [if v], [not v] and [v or d].  A
    [datetime], a [date] and a [time] are always true; a [timedelta] is true
    unless it is [timedelta(0)]. *)
Definition truthy (v : pyval) : bool :=
  match v with
  | VNone => false
  | VStr s => negb (String.eqb s "")
  | VInt n => negb (n =? 0)
  | VFloat x => negb (x =? 0)%float
  | VBool b => b
  | VDatetime _ => true
  | VDate _ => true
  | VTime _ => true
  | VTimedelta microseconds => negb (microseconds =? 0)
  end.

(** [a or b] *)
Definition py_or (a b : pyval) : pyval := if truthy a then a else b.

(** [isinstance(v, str)] *)
Definition is_str (v : pyval) : bool :=
  match v with VStr _ => true | _ => false end.

(** [isinstance(v, (int, float))]; [bool] is a subclass of [int]. *)
Definition is_int_or_float (v : pyval) : bool :=
  match v with VInt _ | VFloat _ | VBool _ => true | _ => false end.

(** [v is not None] *)
Definition is_not_none (v : pyval) : bool :=
  match v with VNone => false | _ => true end.

(** [v != 0] *)
Definition ne_zero (v : pyval) : bool :=
  match v with
  | VInt n => negb (n =? 0)
  | VFloat x => negb (x =? 0)%float
  | VBool b => b
  | VNone | VStr _ | VDatetime _ | VDate _ | VTime _ | VTimedelta _ => true
  end.

(** [v == s] for a string literal [s] *)
Definition eq_str (v : pyval) (s : string) : bool :=
  match v with VStr t => String.eqb t s | _ => false end.

(** [v != s] *)
Definition ne_str (v : pyval) (s : string) : bool := negb (eq_str v s).

(** [v in [s1, s2, ...]] for a list of string literals *)
Definition in_strs (v : pyval) (l : list string) : bool := existsb (eq_str v) l.

(** ** Text

    A Python [str] is a sequence of code points.  It is held here as the
    Rocq [string] of its UTF-8 bytes, a lone surrogate (which a [str] may
    hold) in its three-byte form; a string literal of this development
    denotes the same bytes.  The encoding is one-to-one, so [==], [!=],
    [in], [not s] and the lookup of a dictionary key are the same on both
    sides.  Only [int()] looks at the characters. *)

Definition byte_of (c : ascii) : Z := Z.of_nat (nat_of_ascii c).

Definition ascii_of_Z (n : Z) : ascii := ascii_of_nat (Z.to_nat n).

Definition is_continuation (b : Z) : bool := (128 <=? b) && (b <=? 191).

(** The code points of a [str]; [None] for bytes that encode no [str]
    (a stray or missing continuation byte, an overlong form, a value above
    U+10FFFF). *)
Fixpoint code_points (s : string) : option (list Z) :=
  match s with
  | EmptyString => Some []
  | String c0 rest =>
      let b0 := byte_of c0 in
      if b0 <? 128 then option_map (cons b0) (code_points rest)
      else if (194 <=? b0) && (b0 <=? 223) then
        match rest with
        | String c1 rest1 =>
            let b1 := byte_of c1 in
            if is_continuation b1
            then option_map (cons ((b0 - 192) * 64 + (b1 - 128)))
                            (code_points rest1)
            else None
        | EmptyString => None
        end
      else if (224 <=? b0) && (b0 <=? 239) then
        match rest with
        | String c1 (String c2 rest2) =>
            let b1 := byte_of c1 in
            let b2 := byte_of c2 in
            let ch := (b0 - 224) * 4096 + (b1 - 128) * 64 + (b2 - 128) in
            if is_continuation b1 && is_continuation b2 && (2048 <=? ch)
            then option_map (cons ch) (code_points rest2)
            else None
        | _ => None
        end
      else if (240 <=? b0) && (b0 <=? 244) then
        match rest with
        | String c1 (String c2 (String c3 rest3)) =>
            let b1 := byte_of c1 in
            let b2 := byte_of c2 in
            let b3 := byte_of c3 in
            let ch := (b0 - 240) * 262144 + (b1 - 128) * 4096
                      + (b2 - 128) * 64 + (b3 - 128) in
            if is_continuation b1 && is_continuation b2 && is_continuation b3
               && (65536 <=? ch) && (ch <=? 1114111)
            then option_map (cons ch) (code_points rest3)
            else None
        | _ => None
        end
      else None
  end.

(** The [str] with the given code points. *)
Fixpoint str_of (text : list Z) : string :=
  match text with
  | [] => EmptyString
  | ch :: rest =>
      let more := str_of rest in
      if ch <? 128 then String (ascii_of_Z ch) more
      else if ch <? 2048 then
        String (ascii_of_Z (192 + ch / 64))
          (String (ascii_of_Z (128 + ch mod 64)) more)
      else if ch <? 65536 then
        String (ascii_of_Z (224 + ch / 4096))
          (String (ascii_of_Z (128 + (ch / 64) mod 64))
             (String (ascii_of_Z (128 + ch mod 64)) more))
      else
        String (ascii_of_Z (240 + ch / 262144))
          (String (ascii_of_Z (128 + (ch / 4096) mod 64))
             (String (ascii_of_Z (128 + (ch / 64) mod 64))
                (String (ascii_of_Z (128 + ch mod 64)) more)))
  end.

(** ** [int(s)] on a string

    As the interpreter does it (CPython 3.11, [PyLong_FromUnicodeObject]):
    the text is first brought to ASCII, every blank above ASCII becoming a
    space and every decimal digit of another script its ASCII digit; then
    the ASCII text is read: blanks are stripped at both ends, one sign is
    allowed, then decimal digits with single underscores between digits.
    [None] stands for the [ValueError] that the caller catches. *)

(** [Py_UNICODE_ISSPACE] for a character above ASCII. *)
Definition unicode_isspace (ch : Z) : bool :=
  (ch =? 0x85) || (ch =? 0xA0) || (ch =? 0x1680)
  || (0x2000 <=? ch) && (ch <=? 0x200A)
  || (ch =? 0x2028) || (ch =? 0x2029) || (ch =? 0x202F)
  || (ch =? 0x205F) || (ch =? 0x3000).

(** The code point of the digit zero of every script above ASCII that has
    decimal digits (Unicode 14.0, the character database of CPython 3.11);
    the other nine digits follow it in order. *)
Definition decimal_zeros : list Z :=
  [
    0x660; 0x6F0; 0x7C0; 0x966; 0x9E6; 0xA66;
    0xAE6; 0xB66; 0xBE6; 0xC66; 0xCE6; 0xD66;
    0xDE6; 0xE50; 0xED0; 0xF20; 0x1040; 0x1090;
    0x17E0; 0x1810; 0x1946; 0x19D0; 0x1A80; 0x1A90;
    0x1B50; 0x1BB0; 0x1C40; 0x1C50; 0xA620; 0xA8D0;
    0xA900; 0xA9D0; 0xA9F0; 0xAA50; 0xABF0; 0xFF10;
    0x104A0; 0x10D30; 0x11066; 0x110F0; 0x11136; 0x111D0;
    0x112F0; 0x11450; 0x114D0; 0x11650; 0x116C0; 0x11730;
    0x118E0; 0x11950; 0x11C50; 0x11D50; 0x11DA0; 0x16A60;
    0x16AC0; 0x16B50; 0x1D7CE; 0x1D7D8; 0x1D7E2; 0x1D7EC;
    0x1D7F6; 0x1E140; 0x1E2F0; 0x1E950; 0x1FBF0 ].

(** [Py_UNICODE_TODECIMAL] for a character above ASCII. *)
Definition unicode_decimal (ch : Z) : option Z :=
  match List.find (fun zero => (zero <=? ch) && (ch <=? zero + 9)) decimal_zeros with
  | Some zero => Some (ch - zero)
  | None => None
  end.

(** [_PyUnicode_TransformDecimalAndSpaceToASCII]: a character below 127 is
    kept; at a character that is neither a blank nor a decimal digit the
    text is cut and ends in a question mark. *)
Fixpoint to_ascii (text : list Z) : string :=
  match text with
  | [] => EmptyString
  | ch :: rest =>
      if ch <? 127 then String (ascii_of_Z ch) (to_ascii rest)
      else if unicode_isspace ch then String " " (to_ascii rest)
      else
        match unicode_decimal ch with
        | Some d => String (ascii_of_Z (48 + d)) (to_ascii rest)
        | None => String "?" EmptyString
        end
  end.

(** [Py_ISSPACE]: tab, line feed, vertical tab, form feed, carriage return
    and space. *)
Definition is_space (c : ascii) : bool :=
  let n := nat_of_ascii c in
  ((9 <=? n) && (n <=? 13) || (n =? 32))%nat.

Fixpoint lstrip (s : string) : string :=
  match s with
  | String c rest => if is_space c then lstrip rest else s
  | EmptyString => EmptyString
  end.

Fixpoint rstrip (s : string) : string :=
  match s with
  | String c rest =>
      match rstrip rest with
      | EmptyString => if is_space c then EmptyString else String c EmptyString
      | rest' => String c rest'
      end
  | EmptyString => EmptyString
  end.

Definition strip (s : string) : string := rstrip (lstrip s).

Definition digit_of (c : ascii) : option Z :=
  let n := Z.of_nat (nat_of_ascii c) in
  if (48 <=? n) && (n <=? 57) then Some (n - 48) else None.

(** [after_digit] records that the previous character was a digit: only then
    may an underscore or the end of the text follow. *)
Fixpoint parse_digits (acc : Z) (after_digit : bool) (count : nat) (s : string)
  : option Z :=
  match s with
  | EmptyString =>
      (* more than 4300 digits: ValueError (the interpreter's limit) *)
      if after_digit && (count <=? 4300)%nat then Some acc else None
  | String c rest =>
      if Ascii.eqb c "_" then
        if after_digit then parse_digits acc false count rest else None
      else
        match digit_of c with
        | Some d => parse_digits (10 * acc + d) true (S count) rest
        | None => None
        end
  end.

(** [PyLong_FromString] in base 10, on the ASCII text. *)
Definition int_of_ascii (s : string) : option Z :=
  match strip s with
  | String "+" rest => parse_digits 0 false 0 rest
  | String "-" rest => option_map Z.opp (parse_digits 0 false 0 rest)
  | t => parse_digits 0 false 0 t
  end.

Definition int_of_str (s : string) : option Z :=
  match code_points s with
  | Some text => int_of_ascii (to_ascii text)
  | None => None
  end.

(** ** [int(x)] on a float: truncation toward zero

    [None] stands for the exception raised on an infinity or a NaN. *)
Definition int_of_float (x : float) : option Z :=
  match Prim2SF x with
  | S754_zero _ => Some 0
  | S754_finite s m e =>
      let a := Z.shiftl (Z.pos m) e in Some (if s then - a else a)
  | S754_infinity _ | S754_nan => None
  end.

(** ** The worksheet, as the scripts see it *)

Record worksheet : Type := {
  max_row : nat;
  max_column : nat;
  (** [ws.cell(row, column).value], both 1-based *)
  cell : nat -> nat -> pyval
}.

(** A sheet given by its rows, each a list of cell values, column 1 first;
    a cell outside the grid is empty. *)
Definition sheet_of_rows (rows : list (list pyval)) : worksheet :=
  {| max_row := Nat.max 1 (length rows);
     max_column := Nat.max 1 (list_max (map (@length pyval) rows));
     cell := fun r c => nth (c - 1) (nth (r - 1) rows []) VNone |}.

(** [ws[r]]: the cells of row [r] in columns 1 .. [max_column] *)
Definition row_cells (ws : worksheet) (r : nat) : list pyval :=
  map (cell ws r) (seq 1 (max_column ws)).

(** A workbook maps sheet names to sheets. *)
Abbreviation workbook := (gmap string worksheet).

(** [d.get(key)] on a dict with string keys: a key that is not a [str]
    equals none of them. *)
Definition dict_get (d : gmap string string) (key : pyval) : option string :=
  match key with
  | VStr s => d !! s
  | _ => None
  end.

(** [not v] for the result of [d.get(key)]: [None] and [''] are false. *)
Definition falsy (v : option string) : bool :=
  match v with
  | None => true
  | Some s => String.eqb s ""
  end.

(** ** The emitted statements *)

Inductive column : Type :=
| Scenario | Sector | Region | MetricType | Unit | Year | Value | DataSource.

(** One [INSERT INTO sbti_pathways (...) VALUES (...)] statement: the values
    interpolated into the f-string, and the columns of its
    [ON CONFLICT (...) DO NOTHING] clause when it has one. *)
Record sql_insert : Type := {
  ins_scenario : string;
  ins_sector : string;
  ins_region : pyval;
  ins_metric_type : pyval;
  ins_unit : pyval;
  ins_year : Z;
  ins_value : pyval;
  ins_data_source : string;
  ins_on_conflict_do_nothing : option (list column)
}.

Inductive exn : Type := IndexError.

(** How a run of [extract_pathways_from_excel] ends, with what it left
    behind when it got as far as writing the output file. *)
Inductive run_result (R : Type) : Type :=
| NoDatabaseSheet                       (* prints a message and returns *)
| Completed (r : R)                     (* reaches the end of the function *)
| Uncaught (e : exn) (r : R).           (* exception after the file is written *)

Arguments NoDatabaseSheet {R}.
Arguments Completed {R} r.
Arguments Uncaught {R} e r.

(** ** extract-sbti-pathways-v2.py *)

Module V2.

(** Lines 24-37. *)
Definition sector_map : gmap string string :=
  list_to_map
    [ ("Iron and steel", "iron_steel");
      ("Cement", "cement");
      ("Aluminium", "aluminum");
      ("Aluminum", "aluminum");
      ("Pulp and paper", "pulp_paper");
      ("Other industry", "cross_sector");
      ("Services - Buildings", "buildings");
      ("Residential Buildings", "buildings");
      ("Power", "power_generation");
      ("Power generation", "power_generation");
      ("Transport", "transport");
      ("Primary energy demand and industry", "cross_sector") ].

(** Lines 40-44. *)
Definition scenario_map : gmap string string :=
  list_to_map
    [ ("ETP B2DS", "ETP_B2DS");
      ("SBTi 1.5C", "SBTi_1.5C");
      ("NZE2021", "NZE2021") ].

Definition data_source : string := "IEA SBTi Tool v2.4".

(** The columns named in [ON CONFLICT (...) DO NOTHING], line 105. *)
Definition conflict_columns : list column :=
  [Scenario; Sector; Region; MetricType; Unit; Year].

(** Lines 49-56: the year a header cell stands for, if any.  The
    [ValueError] of [int(header)] is caught and the cell passed over. *)
Definition header_year (header : pyval) : option Z :=
  if truthy header && is_str header then
    match header with
    | VStr s =>
        match int_of_str s with
        | Some year =>
            if (2014 <=? year) && (year <=? 2050) then Some year else None
        | None => None
        end
    | _ => None
    end
  else None.

(** Lines 47-56: [for col_idx in range(9, ws.max_column + 1)]. *)
Definition year_columns (ws : worksheet) : list (nat * Z) :=
  flat_map
    (fun col_idx =>
       match header_year (cell ws 1 col_idx) with
       | Some year => [(col_idx, year)]
       | None => []
       end)
    (seq 9 (max_column ws - 8)).

(** Lines 78-83. *)
Definition metric_type_of (metric_type_raw : pyval) : pyval :=
  if eq_str metric_type_raw "Emissions" then VStr "Emissions"
  else if in_strs metric_type_raw ["Electricity"; "Activity"] then VStr "Activity"
  else metric_type_raw.

(** Lines 97-107: the statement appended for one year column, if any. *)
Definition emit_cell (ws : worksheet) (row_idx : nat)
    (scenario sector : string) (region metric_type unit : pyval)
    (yc : nat * Z) : list sql_insert :=
  let '(col_idx, year) := yc in
  let value := cell ws row_idx col_idx in
  if is_not_none value && is_int_or_float value && ne_zero value then
    [ {| ins_scenario := scenario;
         ins_sector := sector;
         ins_region := region;
         ins_metric_type := metric_type;
         ins_unit := unit;
         ins_year := year;
         ins_value := value;
         ins_data_source := data_source;
         ins_on_conflict_do_nothing := Some conflict_columns |} ]
  else [].

(** How the body of the row loop ends for one row. *)
Inductive row_outcome : Type :=
| Skipped                              (* lines 86-88: counted, [continue] *)
| NotEmissions                         (* lines 91-92: [continue] *)
| Walked (stmts : list sql_insert).    (* lines 95-111 *)

Section Pipeline.

(** The two lookup tables are local constants of the function; the row
    loop is stated over any pair of tables and then run on the
    script's own. *)
Variable sector_map scenario_map : gmap string string.

(** Lines 66-108 for the row [row_idx]. *)
Definition do_row (ws : worksheet) (ycs : list (nat * Z)) (row_idx : nat)
  : row_outcome :=
  let scenario_raw := cell ws row_idx 2 in
  let region := py_or (cell ws row_idx 4) (VStr "World") in
  let metric_type_raw := cell ws row_idx 5 in
  let unit := cell ws row_idx 6 in
  let sector_raw := cell ws row_idx 8 in
  let scenario := dict_get scenario_map scenario_raw in
  let sector := dict_get sector_map sector_raw in
  let metric_type := metric_type_of metric_type_raw in
  if falsy sector || falsy scenario then Skipped
  else
    match sector, scenario with
    | Some sector, Some scenario =>
        if ne_str metric_type "Emissions" then NotEmissions
        else
          Walked (flat_map
                    (emit_cell ws row_idx scenario sector region metric_type unit)
                    ycs)
    | _, _ => Skipped
    end.

(** The statements appended while the loop body runs for [row_idx]. *)
Definition row_statements (ws : worksheet) (ycs : list (nat * Z)) (row_idx : nat)
  : list sql_insert :=
  match do_row ws ycs row_idx with
  | Walked stmts => stmts
  | Skipped | NotEmissions => []
  end.

(** The loop state: [sql_statements], [processed_rows], [skipped_rows]. *)
Record state : Type := {
  sql_statements : list sql_insert;
  processed_rows : nat;
  skipped_rows : nat
}.

Definition init : state :=
  {| sql_statements := []; processed_rows := 0; skipped_rows := 0 |}.

(** One iteration of the row loop, lines 65-111. *)
Definition step (ws : worksheet) (ycs : list (nat * Z)) (st : state)
    (row_idx : nat) : state :=
  match do_row ws ycs row_idx with
  | Skipped =>
      {| sql_statements := sql_statements st;
         processed_rows := processed_rows st;
         skipped_rows := S (skipped_rows st) |}
  | NotEmissions => st
  | Walked stmts =>
      {| sql_statements := sql_statements st ++ stmts;
         processed_rows :=
           if (0 <? length stmts)%nat then S (processed_rows st)
           else processed_rows st;
         skipped_rows := skipped_rows st |}
  end.

(** [for row_idx in range(2, ws.max_row + 1)] *)
Definition row_loop (ws : worksheet) (ycs : list (nat * Z)) : state :=
  fold_left (step ws ycs) (seq 2 (max_row ws - 1)) init.

(** What a run leaves behind: the statements written to the output
    file, the year columns found and the two row counters. *)
Record report : Type := {
  rep_statements : list sql_insert;
  rep_year_columns : list (nat * Z);
  rep_processed_rows : nat;
  rep_skipped_rows : nat
}.

(** Lines 13-160.  The file is written in full before the summary is
    printed; line 156 indexes [year_columns[0]] and [year_columns[-1]]. *)
Definition extract_with (wb : workbook) : run_result report :=
  match wb !! "Database" with
  | None => NoDatabaseSheet
  | Some ws =>
      let ycs := year_columns ws in
      let st := row_loop ws ycs in
      let r := {| rep_statements := sql_statements st;
                  rep_year_columns := ycs;
                  rep_processed_rows := processed_rows st;
                  rep_skipped_rows := skipped_rows st |} in
      match ycs with
      | [] => Uncaught IndexError r
      | _ :: _ => Completed r
      end
  end.

End Pipeline.

Definition extract_pathways_from_excel (wb : workbook) : run_result report :=
  extract_with sector_map scenario_map wb.

(** The statements a run wrote to its output file. *)
Definition emitted (res : run_result report) : list sql_insert :=
  match res with
  | NoDatabaseSheet => []
  | Completed r | Uncaught _ r => rep_statements r
  end.

End V2.

(** ** extract-sbti-pathways.py *)

Module V1.

(** Lines 41-50. *)
Definition sector_map : gmap string string :=
  list_to_map
    [ ("Iron and steel", "iron_steel");
      ("Cement", "cement");
      ("Aluminium", "aluminum");
      ("Pulp and paper", "pulp_paper");
      ("Other industry", "cross_sector");
      ("Services - Buildings", "buildings");
      ("Power", "power_generation");
      ("Power generation", "power_generation") ].

(** Lines 53-57. *)
Definition scenario_map : gmap string string :=
  list_to_map
    [ ("ETP B2DS", "ETP_B2DS");
      ("SBTi 1.5C", "SBTi_1.5C");
      ("NZE2021", "NZE2021") ].

Definition data_source : string := "IEA Database Sheet".

(** [enumerate(l)] *)
Definition enumerate {A : Type} (l : list A) : list (nat * A) :=
  combine (seq 0 (length l)) l.

(** Lines 26-28. *)
Definition headers (ws : worksheet) : list pyval := row_cells ws 1.

(** [2014 <= header <= 2050] on a value that passed
    [isinstance(header, (int, float))]; [True] and [False] count as 1 and 0. *)
Definition in_year_range (header : pyval) : bool :=
  match header with
  | VInt n => (2014 <=? n) && (n <=? 2050)
  | VFloat x => (2014 <=? x)%float && (x <=? 2050)%float
  | VBool b => let n := if b then 1 else 0 in (2014 <=? n) && (n <=? 2050)
  | _ => false
  end.

(** [int(header)] on such a value; [None] is the exception of [int]
    on an infinity or a NaN. *)
Definition int_of (header : pyval) : option Z :=
  match header with
  | VInt n => Some n
  | VFloat x => int_of_float x
  | VBool b => Some (if b then 1 else 0)
  | _ => None
  end.

(** Lines 35-36. *)
Definition header_year (header : pyval) : option Z :=
  if is_int_or_float header && in_year_range header then int_of header
  else None.

(** Lines 33-36: [i] counts from 0. *)
Definition year_columns (ws : worksheet) : list (nat * Z) :=
  flat_map
    (fun '(i, header) =>
       match header_year header with
       | Some year => [(i, year)]
       | None => []
       end)
    (enumerate (headers ws)).

(** [row[i].value if len(row) > i else default] *)
Definition field (row : list pyval) (i : nat) (default : pyval) : pyval :=
  if (i <? length row)%nat then nth i row VNone else default.

(** [d.get(key, key)] *)
Definition dict_get_or_key (d : gmap string string) (key : pyval) : pyval :=
  match dict_get d key with
  | Some v => VStr v
  | None => key
  end.

(** [v in d.values()] *)
Definition in_values (d : gmap string string) (v : pyval) : bool :=
  existsb (eq_str v) (map snd (map_to_list d)).

(** Line 79. *)
Definition metric_type_of (metric_type_raw : pyval) : string :=
  if eq_str metric_type_raw "Emissions" then "Emissions" else "Activity".

(** Lines 87-94: the statement appended for one year column, if any. *)
Definition emit_cell (row : list pyval)
    (scenario sector : string) (region : pyval) (metric_type : string)
    (unit : pyval) (yc : nat * Z) : list sql_insert :=
  let '(col_idx, year) := yc in
  if (col_idx <? length row)%nat then
    let value := nth col_idx row VNone in
    if is_not_none value && is_int_or_float value && ne_zero value then
      [ {| ins_scenario := scenario;
           ins_sector := sector;
           ins_region := region;
           ins_metric_type := VStr metric_type;
           ins_unit := unit;
           ins_year := year;
           ins_value := value;
           ins_data_source := data_source;
           ins_on_conflict_do_nothing := None |} ]
    else []
  else [].

Section Pipeline.

Variable sector_map scenario_map : gmap string string.

(** Lines 64-94 for the row [row_idx]: the statements it appends.
    A row that meets the [continue] of line 83 appends none. *)
Definition do_row (ws : worksheet) (ycs : list (nat * Z)) (row_idx : nat)
  : list sql_insert :=
  let row := row_cells ws row_idx in
  let scenario_raw := field row 1 VNone in
  let region := field row 3 (VStr "World") in
  let metric_type_raw := field row 4 VNone in
  let unit := field row 5 VNone in
  let sector_raw := field row 7 VNone in
  let scenario := dict_get_or_key scenario_map scenario_raw in
  let sector := dict_get sector_map sector_raw in
  let metric_type := metric_type_of metric_type_raw in
  if falsy sector || negb (truthy scenario)
     || negb (in_values scenario_map scenario)
  then []
  else
    match sector, scenario with
    | Some sector, VStr scenario =>
        flat_map (emit_cell row scenario sector region metric_type unit) ycs
    | _, _ => []
    end.

(** [for row_idx in range(2, ws.max_row + 1)]; [row_count] is the
    length of [sql_statements] throughout. *)
Definition row_loop (ws : worksheet) (ycs : list (nat * Z)) : list sql_insert :=
  fold_left (fun stmts row_idx => stmts ++ do_row ws ycs row_idx)
            (seq 2 (max_row ws - 1)) [].

Record report : Type := {
  rep_statements : list sql_insert;
  rep_year_columns : list (nat * Z);
  rep_row_count : nat
}.

(** Lines 14-121. *)
Definition extract_with (wb : workbook) : run_result report :=
  match wb !! "Database" with
  | None => NoDatabaseSheet
  | Some ws =>
      let ycs := year_columns ws in
      let stmts := row_loop ws ycs in
      Completed {| rep_statements := stmts;
                   rep_year_columns := ycs;
                   rep_row_count := length stmts |}
  end.

End Pipeline.

Definition extract_pathways_from_excel (wb : workbook) : run_result report :=
  extract_with sector_map scenario_map wb.

(** The statements a run wrote to its output file. *)
Definition emitted (res : run_result report) : list sql_insert :=
  match res with
  | NoDatabaseSheet => []
  | Completed r | Uncaught _ r => rep_statements r
  end.

End V1.

(** ** The target table

    The statements are text; what reaches the table is each value as the
    f-string formats it, that is [str(v)].  [str] is taken as given: nothing
    below depends on how a value is printed.  Quoting of the printed text
    inside the statement is not modelled. *)

Section Store.

Variable py_str : pyval -> string.

(** A row of [sbti_pathways]. *)
Record db_row : Type := {
  row_scenario : string;
  row_sector : string;
  row_region : string;
  row_metric_type : string;
  row_unit : string;
  row_year : Z;
  row_value : string;
  row_data_source : string
}.

(** The [VALUES (...)] tuple of a statement. *)
Definition values_of (i : sql_insert) : db_row :=
  {| row_scenario := ins_scenario i;
     row_sector := ins_sector i;
     row_region := py_str (ins_region i);
     row_metric_type := py_str (ins_metric_type i);
     row_unit := py_str (ins_unit i);
     row_year := ins_year i;
     row_value := py_str (ins_value i);
     row_data_source := ins_data_source i |}.

(** Two rows hold the same value in column [c]. *)
Definition same_at (c : column) (a b : db_row) : bool :=
  match c with
  | Scenario => String.eqb (row_scenario a) (row_scenario b)
  | Sector => String.eqb (row_sector a) (row_sector b)
  | Region => String.eqb (row_region a) (row_region b)
  | MetricType => String.eqb (row_metric_type a) (row_metric_type b)
  | Unit => String.eqb (row_unit a) (row_unit b)
  | Year => row_year a =? row_year b
  | Value => String.eqb (row_value a) (row_value b)
  | DataSource => String.eqb (row_data_source a) (row_data_source b)
  end.

Definition conflicts (cols : list column) (a b : db_row) : bool :=
  forallb (fun c => same_at c a b) cols.

(** Running one INSERT.  With [ON CONFLICT (cols) DO NOTHING] a row that
    agrees with a stored row on [cols] is passed over; otherwise, and for
    a plain INSERT, the row is added. *)
Definition exec_insert (table : list db_row) (i : sql_insert) : list db_row :=
  match ins_on_conflict_do_nothing i with
  | Some cols =>
      if existsb (conflicts cols (values_of i)) table then table
      else table ++ [values_of i]
  | None => table ++ [values_of i]
  end.

Definition exec_all (stmts : list sql_insert) (table : list db_row) : list db_row :=
  fold_left exec_insert stmts table.

(** The conflict key of a row. *)
Definition key_of (r : db_row) : string * string * string * string * string * Z :=
  (row_scenario r, row_sector r, row_region r, row_metric_type r, row_unit r,
   row_year r).

(** The v2 output file runs this statement before the INSERTs (line 130):
    [DELETE FROM sbti_pathways WHERE data_source LIKE '%IEA%']. *)
Definition contains (infix s : string) : bool :=
  match index 0 infix s with Some _ => true | None => false end.

Definition exec_delete_iea (table : list db_row) : list db_row :=
  List.filter (fun r => negb (contains "IEA" (row_data_source r))) table.

(** The whole v2 file: the DELETE, then the INSERTs (the SELECTs that
    follow change nothing). *)
Definition exec_file_v2 (stmts : list sql_insert) (table : list db_row)
  : list db_row :=
  exec_all stmts (exec_delete_iea table).

Definition has_clause (i : sql_insert) : Prop :=
  ins_on_conflict_do_nothing i = Some V2.conflict_columns.

(** The key of statement [i] is taken in [table]. *)
Definition taken (table : list db_row) (i : sql_insert) : Prop :=
  exists cols, ins_on_conflict_do_nothing i = Some cols
               /\ existsb (conflicts cols (values_of i)) table = true.

End Store.

(** ** The scanner as the specification words it

    "The Scanner returns exactly the (columnIndex, year) pairs whose cell
    resolves to an integer year within the configured range -- a string
    "2020" and a numeric 2020 are both resolved -- in original left-to-right
    column order, with no duplicate years." *)

Definition spec_resolve_year (min_year max_year : Z) (header : pyval)
  : option Z :=
  let within year :=
    if (min_year <=? year) && (year <=? max_year) then Some year else None in
  match header with
  | VStr s => match int_of_str s with Some year => within year | None => None end
  | VInt n => within n
  | _ => None
  end.

Definition scanner_as_specified (scan : worksheet -> list (nat * Z)) : Prop :=
  forall ws,
    (forall col year,
        In (col, year) (scan ws)
        <-> (1 <= col <= max_column ws)%nat
            /\ spec_resolve_year 2014 2050 (cell ws 1 col) = Some year)
    /\ StronglySorted lt (map fst (scan ws))
    /\ NoDup (map snd (scan ws)).

(** A header whose ninth cell is the number 2020 and whose next two cells
    both read "2021". *)
Definition header_numeric_and_repeated : worksheet :=
  sheet_of_rows
    [ [ VNone; VStr "Scenario"; VNone; VStr "Region"; VStr "Flow"; VStr "Unit";
        VNone; VStr "Sector"; VInt 2020; VStr "2021"; VStr "2021" ] ].

(** ** Notions and sample sheets used to state the properties *)

(** The raw label [v] is exactly a key of the mapping [d]. *)
Definition is_key (d : gmap string string) (v : pyval) : Prop :=
  exists s, v = VStr s /\ is_Some (d !! s).

(** The header and the data row of the specification's round-trip example. *)
Definition example_header : list pyval :=
  [ VNone; VStr "Scenario"; VNone; VStr "Region"; VStr "Flow"; VStr "Unit";
    VNone; VStr "Sector"; VStr "2020"; VStr "2021" ].

Definition example_row : list pyval :=
  [ VNone; VStr "SBTi 1.5C"; VNone; VStr "World"; VStr "Emissions";
    VStr "MtCO2"; VNone; VStr "Cement"; VFloat 12.5; VInt 0 ].

Definition example_workbook : workbook :=
  {[ "Database" := sheet_of_rows [example_header; example_row] ]}.

(** The record the specification expects from the example. *)
Definition example_record (source : string) (clause : option (list column))
  : sql_insert :=
  {| ins_scenario := "SBTi_1.5C";
     ins_sector := "cement";
     ins_region := VStr "World";
     ins_metric_type := VStr "Emissions";
     ins_unit := VStr "MtCO2";
     ins_year := 2020;
     ins_value := VFloat 12.5;
     ins_data_source := source;
     ins_on_conflict_do_nothing := clause |}.

(** Data rows with an unmapped sector, an empty region cell, a metric label
    outside the rule, and boolean cells under the year columns. *)
Definition row_chemicals : list pyval :=
  [ VNone; VStr "SBTi 1.5C"; VNone; VStr "World"; VStr "Emissions";
    VStr "MtCO2"; VNone; VStr "Chemicals"; VFloat 12.5; VInt 3 ].

Definition row_no_region : list pyval :=
  [ VNone; VStr "NZE2021"; VNone; VNone; VStr "Emissions";
    VStr "MtCO2"; VNone; VStr "Power"; VInt 7; VNone ].

Definition row_booleans : list pyval :=
  [ VNone; VStr "ETP B2DS"; VNone; VStr "World"; VStr "Emissions";
    VStr "MtCO2"; VNone; VStr "Transport"; VBool true; VBool false ].

Definition sample_sheet : worksheet :=
  sheet_of_rows [example_header; row_chemicals; row_no_region; row_booleans].

(** A sheet whose header holds no year: the data row is otherwise valid. *)
Definition sheet_without_years : worksheet :=
  sheet_of_rows
    [ [ VNone; VStr "Scenario"; VNone; VStr "Region"; VStr "Flow"; VStr "Unit";
        VNone; VStr "Sector"; VStr "Total"; VStr "1990" ];
      example_row ].

Definition workbook_without_years : workbook :=
  {[ "Database" := sheet_without_years ]}.

(** The statement the v2 script writes for the row without a region. *)
Definition no_region_statement : sql_insert :=
  {| ins_scenario := "NZE2021";
     ins_sector := "power_generation";
     ins_region := VStr "World";
     ins_metric_type := VStr "Emissions";
     ins_unit := VStr "MtCO2";
     ins_year := 2020;
     ins_value := VInt 7;
     ins_data_source := V2.data_source;
     ins_on_conflict_do_nothing := Some V2.conflict_columns |}.

(** The example sheet with numeric year headers, as the v1 script expects
    them, followed by a row whose scenario label is already canonical, whose
    region cell is empty and whose metric label is outside the rule. *)
Definition numeric_header : list pyval :=
  [ VNone; VStr "Scenario"; VNone; VStr "Region"; VStr "Flow"; VStr "Unit";
    VNone; VStr "Sector"; VInt 2020; VFloat 2021.5 ].

Definition row_canonical_label : list pyval :=
  [ VNone; VStr "SBTi_1.5C"; VNone; VNone; VStr "Heat";
    VStr "MtCO2"; VNone; VStr "Cement"; VInt 0; VBool true ].

Definition numeric_workbook : workbook :=
  {[ "Database" := sheet_of_rows [numeric_header; example_row; row_canonical_label] ]}.

(** ** The rest of the two scripts: counters, output files, entry points *)

(** [d.get(key)] found nothing. *)
Definition unmapped (d : gmap string string) (key : pyval) : bool :=
  match dict_get d key with
  | None => true
  | Some _ => false
  end.

(** The data rows of a sheet: [range(2, ws.max_row + 1)]. *)
Definition data_rows (ws : worksheet) : list nat := seq 2 (max_row ws - 1).

(** A data row of the sample kind whose flow is "Electricity". *)
Definition row_electricity : list pyval :=
  [ VNone; VStr "NZE2021"; VNone; VStr "World"; VStr "Electricity";
    VStr "TWh"; VNone; VStr "Power"; VInt 5; VInt 6 ].

Definition sheet_with_activity : worksheet :=
  sheet_of_rows [example_header; row_electricity; example_row].

(** *** The output files

    What the scripts write, item by item: comment lines, the statements and
    the queries.  Blank lines are left out. *)

Inductive file_item : Type :=
| Comment (text : string)
| DeleteIEA        (* DELETE FROM sbti_pathways WHERE data_source LIKE '%IEA%'; *)
| Insert (i : sql_insert)
| Progress (done total : nat)          (* -- Progress: done/total rows *)
| AlterTriggers (enable : bool)        (* ALTER TABLE sbti_pathways ... TRIGGER ALL; *)
| Query (text : string).

(** Lines 117-150 of the v2 script. *)
Definition v2_output_file (sql_statements : list sql_insert) : list file_item :=
  [ Comment "============================================================================";
    Comment "SBTI PATHWAYS DATA - Complete dataset from Official Excel Tools";
    Comment "============================================================================";
    Comment "Source: SBTi Target-Setting Tool v2.4";
    Comment "Database sheet: 259 rows of IEA scenario data";
    Comment "Scenarios: ETP B2DS (Beyond 2 C), SBTi 1.5C, NZE2021";
    Comment "Sectors: Cross-sector, Iron & Steel, Cement, Aluminum, Power, etc.";
    Comment "Years: 2014-2050";
    Comment "============================================================================";
    Comment "Delete existing sample data";
    DeleteIEA ]
  ++ flat_map
       (fun '(i, sql) =>
          Insert sql
          :: (if ((i + 1) mod 50 =? 0)%nat
              then [Progress (i + 1) (length sql_statements)]
              else []))
       (V1.enumerate sql_statements)
  ++ [ Comment "============================================================================";
       Comment "VERIFICATION QUERIES";
       Comment "============================================================================";
       Comment "Count by scenario and sector";
       Query "SELECT scenario, sector, COUNT(*) as row_count FROM sbti_pathways GROUP BY scenario, sector ORDER BY scenario, sector;";
       Comment "Sample data for verification";
       Query "SELECT * FROM sbti_pathways WHERE sector = 'cement' AND scenario = 'SBTi_1.5C' ORDER BY year LIMIT 10;" ].

(** The statements of a file that change the table, in file order. *)
Definition file_inserts (items : list file_item) : list sql_insert :=
  flat_map (fun item => match item with Insert i => [i] | _ => [] end) items.

Section FileStore.

Variable py_str : pyval -> string.

(** Running one item of a file against the table. *)
Definition exec_item (table : list db_row) (item : file_item) : list db_row :=
  match item with
  | DeleteIEA => exec_delete_iea table
  | Insert i => exec_insert py_str table i
  | Comment _ | Progress _ _ | AlterTriggers _ | Query _ => table
  end.

Definition exec_items (items : list file_item) (table : list db_row)
  : list db_row :=
  fold_left exec_item items table.

End FileStore.

(** ** services/forecast-service/main.py

    The [/predict] endpoint.  The forecasting library, the data-frame
    statistics, the clock and the text of an exception are taken as given;
    what is modelled is what the endpoint does around them. *)

Module Forecast.

(** Lines 39-50. *)
Record HistoricalDataPoint : Type := {
  date : string;
  value : float
}.

Record ForecastRequest : Type := {
  domain : string;
  organizationId : string;
  historicalData : list HistoricalDataPoint;
  monthsToForecast : Z
}.

(** One row of the frame that [model.predict(future)] returns, with the
    columns the endpoint reads. *)
Record forecast_row : Type := {
  yhat : float;
  yhat_lower : float;
  yhat_upper : float;
  trend : float;
  yearly : float
}.

Record forecast_frame : Type := {
  frame_rows : list forecast_row;
  has_yearly : bool                 (* ['yearly' in forecast] *)
}.

(** Lines 53-58 and 144-162: the response with its [metadata] entries. *)
Record ForecastResponse : Type := {
  forecasted : list float;
  confidence_lower : list float;
  confidence_upper : list float;
  method : string;
  meta_trend : float;
  meta_yearly : float;
  meta_historical_mean : float;
  meta_historical_std : float;
  meta_data_points : nat;
  meta_forecast_horizon : Z;
  meta_domain : string;
  meta_organization_id : string;
  meta_generated_at : string
}.

(** What can be raised inside the endpoint: the framework's
    [HTTPException], or any other exception, kept as its text. *)
Inductive exception : Type :=
| HTTPException (status_code : Z) (detail : string)
| Raised (text : string).

(** [df.tail(n)]: nothing for 0, the last [n] rows for a positive [n], all
    rows but the first [-n] for a negative one. *)
Definition tail {A : Type} (n : Z) (rows : list A) : list A :=
  if n =? 0 then []
  else if 0 <? n then skipn (length rows - Z.to_nat n) rows
  else skipn (Z.to_nat (- n)) rows.

Section Endpoint.

(** Lines 108-138: building the data frame, fitting the model and
    predicting; the text of the exception when one of them raises. *)
Variable fit_and_predict : list HistoricalDataPoint -> Z -> string + forecast_frame.

(** [df['y'].mean()] and [df['y'].std()] *)
Variable mean std : list float -> float.

(** [datetime.utcnow().isoformat()] *)
Variable utcnow : string.

(** [str(e)] for an [HTTPException] *)
Variable str_http : Z -> string -> string.

Definition str_exception (e : exception) : string :=
  match e with
  | HTTPException status_code detail => str_http status_code detail
  | Raised text => text
  end.

(** Lines 98-166: the body of the [try]. *)
Definition try_body (request : ForecastRequest) : exception + ForecastResponse :=
  if (length (historicalData request) <? 12)%nat then
    inl (HTTPException 400
           "Need at least 12 months of historical data for reliable forecasting")
  else
    match fit_and_predict (historicalData request) (monthsToForecast request) with
    | inl text => inl (Raised text)
    | inr forecast =>
        let forecasted_values :=
          tail (monthsToForecast request) (frame_rows forecast) in
        match last (frame_rows forecast) with
        | None =>
            (* [.iloc[-1]] on an empty column *)
            inl (Raised "single positional indexer is out-of-bounds")
        | Some final =>
            inr {| forecasted := map yhat forecasted_values;
                   confidence_lower := map yhat_lower forecasted_values;
                   confidence_upper := map yhat_upper forecasted_values;
                   method := "prophet";
                   meta_trend := trend final;
                   meta_yearly :=
                     if has_yearly forecast then yearly final else 0%float;
                   meta_historical_mean :=
                     mean (map value (historicalData request));
                   meta_historical_std :=
                     std (map value (historicalData request));
                   meta_data_points := length (historicalData request);
                   meta_forecast_horizon := monthsToForecast request;
                   meta_domain := domain request;
                   meta_organization_id := organizationId request;
                   meta_generated_at := utcnow |}
        end
    end.

(** Lines 97-170: [except Exception as e] turns whatever was raised into an
    [HTTPException] with status 500. *)
Definition predict (request : ForecastRequest) : exception + ForecastResponse :=
  match try_body request with
  | inl e => inl (HTTPException 500 ("Forecasting failed: " ++ str_exception e)%string)
  | inr response => inr response
  end.

End Endpoint.

End Forecast.

(** A request with eleven months of data, and a forecaster that returns
    three rows whatever it is given. *)
Definition eleven_points : list Forecast.HistoricalDataPoint :=
  repeat {| Forecast.date := "2022-01-01"; Forecast.value := 1%float |} 11.

Definition short_request : Forecast.ForecastRequest :=
  {| Forecast.domain := "energy";
     Forecast.organizationId := "org";
     Forecast.historicalData := eleven_points;
     Forecast.monthsToForecast := 3 |}.

Definition long_request : Forecast.ForecastRequest :=
  {| Forecast.domain := "energy";
     Forecast.organizationId := "org";
     Forecast.historicalData :=
       {| Forecast.date := "2022-12-01"; Forecast.value := 2%float |}
       :: eleven_points;
     Forecast.monthsToForecast := 2 |}.

Definition sample_row (x : float) : Forecast.forecast_row :=
  {| Forecast.yhat := x;
     Forecast.yhat_lower := (x - 1)%float;
     Forecast.yhat_upper := (x + 1)%float;
     Forecast.trend := x;
     Forecast.yearly := 0%float |}.

Definition sample_forecaster (_ : list Forecast.HistoricalDataPoint) (_ : Z)
  : string + Forecast.forecast_frame :=
  inr {| Forecast.frame_rows := [sample_row 1; sample_row 2; sample_row 3];
         Forecast.has_yearly := true |}.

(** ** projects/retail-intelligence/docs/deployment/PYTHON_COMPATIBILITY_WRAPPER.py

    What the wrapper does with the value that [resp.json()] returns.  The
    HTTP exchange itself is outside the model: each method is a function of
    the parsed reply. *)

Module Retail.

(** A parsed JSON value; an object keeps its entries in order, as a Python
    dict does, and a key is looked up by its first entry. *)
#[warnings="-register-all"]
Inductive json : Type :=
| JNull
| JBool (b : bool)
| JInt (n : Z)
| JFloat (x : float)
| JStr (s : string)
| JArr (items : list json)
| JObj (entries : list (string * json)).

Inductive error : Type :=
| AttributeError        (* [.get] on a value that is not a dict *)
| KeyError (key : string)
| TypeError.            (* [x['key']] on a value that is not a dict *)

Definition truthy (v : json) : bool :=
  match v with
  | JNull => false
  | JBool b => b
  | JInt n => negb (n =? 0)
  | JFloat x => negb (x =? 0)%float
  | JStr s => negb (s =? "")%string
  | JArr items => match items with [] => false | _ => true end
  | JObj entries => match entries with [] => false | _ => true end
  end.

Fixpoint lookup (key : string) (entries : list (string * json)) : option json :=
  match entries with
  | [] => None
  | (k, v) :: rest => if (k =? key)%string then Some v else lookup key rest
  end.

(** [v.get(key)] *)
Definition get (v : json) (key : string) : error + json :=
  match v with
  | JObj entries =>
      inr (match lookup key entries with Some x => x | None => JNull end)
  | _ => inl AttributeError
  end.

(** [v[key]] for a string key *)
Definition item (v : json) (key : string) : error + json :=
  match v with
  | JObj entries =>
      match lookup key entries with
      | Some x => inr x
      | None => inl (KeyError key)
      end
  | _ => inl TypeError
  end.

Definition bind {A B : Type} (m : error + A) (f : A -> error + B) : error + B :=
  match m with
  | inl e => inl e
  | inr a => f a
  end.

Notation "'let*' x := m 'in' k" := (bind m (fun x => k))
  (at level 10, x name, m at level 100, k at level 200).

(** Lines 128-132. *)
Definition _transform_analytics_response (data : json) : json := data.

(** Lines 77-83, for the parsed reply [result]. *)
Definition get_analytics (result : json) : error + json :=
  let* success := get result "success" in
  if truthy success then
    let* data := get result "data" in
    if truthy data then
      let* data := item result "data" in
      inr (_transform_analytics_response data)
    else inr result
  else inr result.

(** The dict of lines 174-193. *)
Record analytics_row : Type := {
  loja : json;
  data_inicio : json;
  data_fim : json;
  total_vendas_com_iva : json;
  total_vendas_sem_iva : json;
  transacoes_vendas : json;
  visitantes : json;
  taxa_conversao : json;
  tempo_medio_permanencia : json;
  ticket_medio_com_iva : json;
  entry_rate : json;
  total_passagens : json;
  ultima_coleta : json;
  top_vendedores : string;
  top_produtos : string;
  ocupacao_regioes : string;
  top_2_regioes_ocupadas : string;
  menos_2_regioes_ocupadas : string
}.

(** [data[a][b]] *)
Definition item2 (data : json) (a b : string) : error + json :=
  let* inner := item data a in item inner b.

Section CompatibilityDB.

(** [json.dumps] *)
Variable json_dumps : json -> string.

(** Lines 174-193: the entries of the dict, evaluated in the order
    written. *)
Definition build_row (data : json) : error + analytics_row :=
  let* v1 := item data "loja" in
  let* v2 := item2 data "periodo" "inicio" in
  let* v3 := item2 data "periodo" "fim" in
  let* v4 := item2 data "vendas" "total_com_iva" in
  let* v5 := item2 data "vendas" "total_sem_iva" in
  let* v6 := item2 data "vendas" "transacoes" in
  let* v7 := item2 data "trafego" "visitantes" in
  let* v8 := item2 data "conversao" "taxa_conversao" in
  let* v9 := item2 data "conversao" "tempo_medio_permanencia" in
  let* v10 := item2 data "vendas" "ticket_medio" in
  let* v11 := item2 data "trafego" "entry_rate" in
  let* v12 := item2 data "trafego" "total_passagens" in
  let* v13 := item data "ultima_atualizacao" in
  let* v14 := item2 data "top_performers" "vendedores" in
  let* v15 := item2 data "top_performers" "produtos" in
  let* v16 := item2 data "regioes" "ocupacao" in
  let* v17 := item2 data "regioes" "top_2" in
  let* v18 := item2 data "regioes" "bottom_2" in
  inr {| loja := v1;
         data_inicio := v2;
         data_fim := v3;
         total_vendas_com_iva := v4;
         total_vendas_sem_iva := v5;
         transacoes_vendas := v6;
         visitantes := v7;
         taxa_conversao := v8;
         tempo_medio_permanencia := v9;
         ticket_medio_com_iva := v10;
         entry_rate := v11;
         total_passagens := v12;
         ultima_coleta := v13;
         top_vendedores := json_dumps v14;
         top_produtos := json_dumps v15;
         ocupacao_regioes := json_dumps v16;
         top_2_regioes_ocupadas := json_dumps v17;
         menos_2_regioes_ocupadas := json_dumps v18 |}.

(** Lines 169-194, for the reply that the call inside [get_analytics]
    receives. *)
Definition get_analytics_results (reply : json) : error + option analytics_row :=
  let* result := get_analytics reply in
  let* success := get result "success" in
  if truthy success then
    let* data := get result "data" in
    if truthy data then
      let* data := item result "data" in
      let* row := build_row data in
      inr (Some row)
    else inr None
  else inr None.

End CompatibilityDB.

End Retail.

(** The analytics of one store, as the API returns them in the [data] entry
    of a successful reply. *)
Definition store_analytics : Retail.json :=
  Retail.JObj
    [("loja", Retail.JStr "OML01");
     ("periodo", Retail.JObj [("inicio", Retail.JStr "2025-01-01");
                              ("fim", Retail.JStr "2025-01-07")]);
     ("vendas", Retail.JObj [("total_com_iva", Retail.JInt 1230);
                             ("total_sem_iva", Retail.JInt 1000);
                             ("transacoes", Retail.JInt 40);
                             ("ticket_medio", Retail.JInt 30)]);
     ("trafego", Retail.JObj [("visitantes", Retail.JInt 200);
                              ("entry_rate", Retail.JInt 25);
                              ("total_passagens", Retail.JInt 800)]);
     ("conversao", Retail.JObj [("taxa_conversao", Retail.JInt 20);
                                ("tempo_medio_permanencia", Retail.JInt 12)]);
     ("ultima_atualizacao", Retail.JStr "2025-01-07T23:59:59");
     ("top_performers", Retail.JObj [("vendedores", Retail.JArr []);
                                     ("produtos", Retail.JArr [])]);
     ("regioes", Retail.JObj [("ocupacao", Retail.JObj []);
                              ("top_2", Retail.JArr []);
                              ("bottom_2", Retail.JArr [])])].

Definition envelope (data : Retail.json) : Retail.json :=
  Retail.JObj [("success", Retail.JBool true); ("data", data)].

Definition failed_reply : Retail.json :=
  Retail.JObj [("success", Retail.JBool false);
               ("error", Retail.JStr "Store not found")].

(** The row that [CompatibilityDB.get_analytics_results] builds from
    [store_analytics] when [json.dumps] is rendered as a fixed text. *)
Definition store_row : Retail.analytics_row :=
  {| Retail.loja := Retail.JStr "OML01";
     Retail.data_inicio := Retail.JStr "2025-01-01";
     Retail.data_fim := Retail.JStr "2025-01-07";
     Retail.total_vendas_com_iva := Retail.JInt 1230;
     Retail.total_vendas_sem_iva := Retail.JInt 1000;
     Retail.transacoes_vendas := Retail.JInt 40;
     Retail.visitantes := Retail.JInt 200;
     Retail.taxa_conversao := Retail.JInt 20;
     Retail.tempo_medio_permanencia := Retail.JInt 12;
     Retail.ticket_medio_com_iva := Retail.JInt 30;
     Retail.entry_rate := Retail.JInt 25;
     Retail.total_passagens := Retail.JInt 800;
     Retail.ultima_coleta := Retail.JStr "2025-01-07T23:59:59";
     Retail.top_vendedores := "[]";
     Retail.top_produtos := "[]";
     Retail.ocupacao_regioes := "[]";
     Retail.top_2_regioes_ocupadas := "[]";
     Retail.menos_2_regioes_ocupadas := "[]" |}.

(** * Properties *)

(** ** Text *)

Lemma byte_of_ascii_of_Z (n : Z) : 0 <= n < 256 -> byte_of (ascii_of_Z n) = n.
Proof.
  intros H. unfold byte_of, ascii_of_Z.
  rewrite nat_ascii_embedding by lia. lia.
Qed.

Ltac decide_comparisons :=
  repeat match goal with
         | |- context [?a <? ?b] => destruct (Z.ltb_spec a b); try lia
         | |- context [?a <=? ?b] => destruct (Z.leb_spec a b); try lia
         end.

Lemma code_points_1 (b0 : Z) (rest : string) :
  0 <= b0 < 128 ->
  code_points (String (ascii_of_Z b0) rest)
  = option_map (cons b0) (code_points rest).
Proof.
  intros H0. cbn [code_points].
  rewrite byte_of_ascii_of_Z by lia.
  decide_comparisons. reflexivity.
Qed.

Lemma code_points_2 (b0 b1 : Z) (rest : string) :
  194 <= b0 <= 223 -> 128 <= b1 <= 191 ->
  code_points (String (ascii_of_Z b0) (String (ascii_of_Z b1) rest))
  = option_map (cons ((b0 - 192) * 64 + (b1 - 128))) (code_points rest).
Proof.
  intros H0 H1. cbn [code_points].
  rewrite !byte_of_ascii_of_Z by lia. unfold is_continuation.
  decide_comparisons. reflexivity.
Qed.

Lemma code_points_3 (b0 b1 b2 : Z) (rest : string) :
  224 <= b0 <= 239 -> 128 <= b1 <= 191 -> 128 <= b2 <= 191 ->
  2048 <= (b0 - 224) * 4096 + (b1 - 128) * 64 + (b2 - 128) ->
  code_points
    (String (ascii_of_Z b0) (String (ascii_of_Z b1) (String (ascii_of_Z b2) rest)))
  = option_map (cons ((b0 - 224) * 4096 + (b1 - 128) * 64 + (b2 - 128)))
               (code_points rest).
Proof.
  intros H0 H1 H2 H. cbn [code_points].
  rewrite !byte_of_ascii_of_Z by lia. unfold is_continuation.
  decide_comparisons. reflexivity.
Qed.

Lemma code_points_4 (b0 b1 b2 b3 : Z) (rest : string) :
  240 <= b0 <= 244 -> 128 <= b1 <= 191 -> 128 <= b2 <= 191 ->
  128 <= b3 <= 191 ->
  65536 <= (b0 - 240) * 262144 + (b1 - 128) * 4096 + (b2 - 128) * 64
           + (b3 - 128) <= 1114111 ->
  code_points
    (String (ascii_of_Z b0)
       (String (ascii_of_Z b1) (String (ascii_of_Z b2) (String (ascii_of_Z b3) rest))))
  = option_map
      (cons ((b0 - 240) * 262144 + (b1 - 128) * 4096 + (b2 - 128) * 64
             + (b3 - 128)))
      (code_points rest).
Proof.
  intros H0 H1 H2 H3 H. cbn [code_points].
  rewrite !byte_of_ascii_of_Z by lia. unfold is_continuation.
  decide_comparisons. reflexivity.
Qed.

(** Every sequence of code points is read back from its bytes: the model of
    [str] loses nothing, and two different texts have different bytes. *)
Lemma code_points_str_of (text : list Z) :
  List.Forall (fun ch => 0 <= ch <= 1114111) text ->
  code_points (str_of text) = Some text.
Proof.
  induction 1 as [|ch rest Hch _ IH]; [reflexivity|].
  cbn [str_of].
  destruct (Z.ltb_spec ch 128).
  { rewrite code_points_1 by lia. rewrite IH. reflexivity. }
  destruct (Z.ltb_spec ch 2048).
  { rewrite code_points_2 by (Z.to_euclidean_division_equations; lia).
    rewrite IH. cbn [option_map]. do 2 f_equal.
    Z.to_euclidean_division_equations; lia. }
  destruct (Z.ltb_spec ch 65536).
  { rewrite code_points_3 by (Z.to_euclidean_division_equations; lia).
    rewrite IH. cbn [option_map]. do 2 f_equal.
    Z.to_euclidean_division_equations; lia. }
  rewrite code_points_4 by (Z.to_euclidean_division_equations; lia).
  rewrite IH. cbn [option_map]. do 2 f_equal.
  Z.to_euclidean_division_equations; lia.
Qed.

Lemma str_of_injective (text text' : list Z) :
  List.Forall (fun ch => 0 <= ch <= 1114111) text ->
  List.Forall (fun ch => 0 <= ch <= 1114111) text' ->
  str_of text = str_of text' -> text = text'.
Proof.
  intros H H' E. apply code_points_str_of in H, H'.
  rewrite E in H. congruence.
Qed.

(** [int()] on texts that tell it from a reader of ASCII digits: the
    separators U+001C to U+001F are blanks for [str.strip] but not for
    [int()]; a no-break space and an ideographic space are stripped; the
    digits of other scripts are read, also mixed; a sign must touch the
    digits; an underscore may stand between two digits only. *)
Lemma int_of_str_examples :
  int_of_str "2020" = Some 2020
  /\ int_of_str (str_of [9; 50; 48; 50; 48; 10]) = Some 2020
  /\ int_of_str (str_of [0x1C; 50; 48; 50; 48]) = None
  /\ int_of_str (str_of [50; 48; 50; 48; 0x1F]) = None
  /\ int_of_str (str_of [0xFF12; 0xFF10; 0xFF12; 0xFF10]) = Some 2020
  /\ int_of_str (str_of [0xA0; 50; 48; 50; 49; 0x3000]) = Some 2021
  /\ int_of_str (str_of [0x662; 48; 0x968; 0x1D7CE]) = Some 2020
  /\ int_of_str (str_of [50; 48; 0xB2; 48]) = None
  /\ int_of_str "+2020" = Some 2020
  /\ int_of_str "+ 2020" = None
  /\ int_of_str "2_020" = Some 2020
  /\ int_of_str "2__020" = None
  /\ int_of_str "2020_" = None
  /\ int_of_str "2020.0" = None
  /\ int_of_str "" = None.
Proof. repeat split; vm_compute; reflexivity. Qed.

(** ** The table under do-nothing-on-conflict INSERTs *)

Section StoreFacts.

Variable py_str : pyval -> string.

Local Abbreviation values_of := (values_of py_str).
Local Abbreviation exec_insert := (exec_insert py_str).
Local Abbreviation exec_all := (exec_all py_str).
Local Abbreviation taken := (taken py_str).

Lemma same_at_refl c a : same_at c a a = true.
Proof.
  destruct c; simpl; try apply String.eqb_refl. apply Z.eqb_refl.
Qed.

Lemma conflicts_refl cols a : conflicts cols a a = true.
Proof.
  unfold conflicts. apply forallb_forall. intros c _. apply same_at_refl.
Qed.

Lemma conflicts_key a b :
  conflicts V2.conflict_columns a b = true <-> key_of a = key_of b.
Proof.
  unfold conflicts, key_of; simpl.
  rewrite !andb_true_iff, !String.eqb_eq, Z.eqb_eq.
  destruct a, b; simpl. split.
  - intros (-> & -> & -> & -> & -> & -> & _). reflexivity.
  - intros [= -> -> -> -> -> ->]. repeat split.
Qed.

Lemma exec_insert_extends table i :
  exists added, exec_insert table i = table ++ added.
Proof.
  unfold exec_insert.
  destruct (ins_on_conflict_do_nothing i) as [cols|].
  - destruct (existsb _ table).
    + exists []. symmetry. apply app_nil_r.
    + eexists. reflexivity.
  - eexists. reflexivity.
Qed.

Lemma exec_all_cons i stmts table :
  exec_all (i :: stmts) table = exec_all stmts (exec_insert table i).
Proof. reflexivity. Qed.

Lemma exec_all_app s1 s2 table :
  exec_all (s1 ++ s2) table = exec_all s2 (exec_all s1 table).
Proof. apply fold_left_app. Qed.

Lemma exec_all_extends stmts : forall table,
  exists added, exec_all stmts table = table ++ added.
Proof.
  induction stmts as [|i stmts IH]; intros table.
  - exists []. symmetry. apply app_nil_r.
  - destruct (exec_insert_extends table i) as [a1 E1].
    destruct (IH (exec_insert table i)) as [a2 E2].
    exists (a1 ++ a2). rewrite exec_all_cons, E2, E1.
    symmetry. apply app_assoc.
Qed.

Lemma taken_app table added i : taken table i -> taken (table ++ added) i.
Proof.
  intros (cols & Hc & Hx). exists cols. split; [exact Hc|].
  rewrite existsb_app, Hx. reflexivity.
Qed.

Lemma taken_after_insert table i cols :
  ins_on_conflict_do_nothing i = Some cols -> taken (exec_insert table i) i.
Proof.
  intros Hc. exists cols. split; [exact Hc|].
  unfold exec_insert. rewrite Hc.
  destruct (existsb _ table) eqn:Hx; [exact Hx|].
  rewrite existsb_app. simpl. rewrite conflicts_refl.
  rewrite orb_true_r. reflexivity.
Qed.

Lemma exec_insert_taken table i : taken table i -> exec_insert table i = table.
Proof.
  intros (cols & Hc & Hx). unfold exec_insert. rewrite Hc, Hx. reflexivity.
Qed.

Lemma exec_all_taken stmts table :
  Forall (taken table) stmts -> exec_all stmts table = table.
Proof.
  induction 1 as [|i stmts Hi _ IH]; [reflexivity|].
  rewrite exec_all_cons, (exec_insert_taken _ _ Hi). exact IH.
Qed.

Lemma taken_after_all stmts : forall table,
  Forall (fun i => exists cols, ins_on_conflict_do_nothing i = Some cols) stmts ->
  Forall (taken (exec_all stmts table)) stmts.
Proof.
  induction stmts as [|i stmts IH]; intros table H; [constructor|].
  inversion H as [|? ? [cols Hc] Hrest]; subst.
  rewrite exec_all_cons. constructor.
  - destruct (exec_all_extends stmts (exec_insert table i)) as [added E].
    rewrite E. apply taken_app. eapply taken_after_insert; eassumption.
  - apply IH. exact Hrest.
Qed.

(** Re-running a batch of do-nothing-on-conflict INSERTs changes nothing. *)
Lemma exec_all_idempotent stmts table :
  Forall (fun i => exists cols, ins_on_conflict_do_nothing i = Some cols) stmts ->
  exec_all stmts (exec_all stmts table) = exec_all stmts table.
Proof.
  intros H. apply exec_all_taken. apply taken_after_all. exact H.
Qed.

Lemma exec_insert_keys table i :
  has_clause i -> NoDup (map key_of table) ->
  NoDup (map key_of (exec_insert table i)).
Proof.
  intros Hc Hnd. unfold exec_insert. rewrite Hc.
  destruct (existsb _ table) eqn:Hx; [exact Hnd|].
  rewrite map_app. simpl.
  apply NoDup_app. repeat split.
  - exact Hnd.
  - intros k Hk Hk'. apply list_elem_of_In in Hk.
    apply list_elem_of_singleton in Hk'. subst k.
    apply in_map_iff in Hk as (r & Hr & Hin).
    assert (existsb (conflicts V2.conflict_columns (values_of i)) table = true)
      as Habs.
    { apply existsb_exists. exists r. split; [exact Hin|].
      apply conflicts_key. symmetry. exact Hr. }
    congruence.
  - apply NoDup_singleton.
Qed.

Lemma exec_all_keys stmts : forall table,
  Forall has_clause stmts -> NoDup (map key_of table) ->
  NoDup (map key_of (exec_all stmts table)).
Proof.
  induction stmts as [|i stmts IH]; intros table H Hnd; [exact Hnd|].
  inversion H; subst. rewrite exec_all_cons. apply IH; [assumption|].
  apply exec_insert_keys; assumption.
Qed.

Lemma exec_all_data_source stmts src : forall table,
  Forall (fun i => ins_data_source i = src) stmts ->
  Forall (fun r => row_data_source r = src) table ->
  Forall (fun r => row_data_source r = src) (exec_all stmts table).
Proof.
  induction stmts as [|i stmts IH]; intros table H Ht; [exact Ht|].
  inversion H; subst. rewrite exec_all_cons. apply IH; [assumption|].
  unfold exec_insert.
  destruct (ins_on_conflict_do_nothing i);
    [destruct (existsb _ table); [exact Ht|]|];
    apply Forall_app; (split; [exact Ht|]); repeat constructor.
Qed.

End StoreFacts.

(** ** The row loop of the v2 script *)

Section V2Loop.

Variable sector_map scenario_map : gmap string string.
Variable ws : worksheet.
Variable ycs : list (nat * Z).

Local Abbreviation do_row := (V2.do_row sector_map scenario_map ws ycs).
Local Abbreviation row_statements := (V2.row_statements sector_map scenario_map ws ycs).
Local Abbreviation step := (V2.step sector_map scenario_map ws ycs).

Lemma v2_step_statements st row_idx :
  V2.sql_statements (step st row_idx)
  = V2.sql_statements st ++ row_statements row_idx.
Proof.
  unfold V2.step, V2.row_statements.
  destruct (V2.do_row _ _ _ _ _); simpl; try reflexivity;
    symmetry; apply app_nil_r.
Qed.

Lemma v2_step_skipped st row_idx :
  V2.skipped_rows (step st row_idx)
  = match do_row row_idx with
    | V2.Skipped => S (V2.skipped_rows st)
    | _ => V2.skipped_rows st
    end.
Proof.
  unfold V2.step. destruct (V2.do_row _ _ _ _ _); reflexivity.
Qed.

(** The statements of a run are those of its rows, in row order. *)
Lemma v2_fold_statements rows : forall st,
  V2.sql_statements (fold_left step rows st)
  = V2.sql_statements st ++ flat_map row_statements rows.
Proof.
  induction rows as [|r rows IH]; intros st; simpl.
  - symmetry. apply app_nil_r.
  - rewrite IH, v2_step_statements. symmetry. apply app_assoc.
Qed.

Lemma v2_row_loop_statements :
  V2.sql_statements (V2.row_loop sector_map scenario_map ws ycs)
  = flat_map row_statements (seq 2 (max_row ws - 1)).
Proof.
  unfold V2.row_loop. rewrite v2_fold_statements. reflexivity.
Qed.

(** A statement of the run comes from one data row and one year column. *)
Lemma v2_in_row_loop i :
  In i (V2.sql_statements (V2.row_loop sector_map scenario_map ws ycs)) ->
  exists row_idx stmts,
    (2 <= row_idx <= max_row ws)%nat
    /\ do_row row_idx = V2.Walked stmts /\ In i stmts.
Proof.
  rewrite v2_row_loop_statements. intros H.
  apply in_flat_map in H as (r & Hr & Hi).
  apply in_seq in Hr. unfold V2.row_statements in Hi.
  destruct (V2.do_row _ _ _ _ r) as [| |stmts] eqn:E; try contradiction.
  exists r, stmts. repeat split; try assumption; lia.
Qed.

(** What it takes for the loop body to reach the year columns. *)
Lemma v2_do_row_walked row_idx stmts :
  do_row row_idx = V2.Walked stmts ->
  exists sector scenario,
    dict_get sector_map (cell ws row_idx 8) = Some sector
    /\ dict_get scenario_map (cell ws row_idx 2) = Some scenario
    /\ sector <> "" /\ scenario <> ""
    /\ V2.metric_type_of (cell ws row_idx 5) = VStr "Emissions"
    /\ stmts = flat_map
                 (V2.emit_cell ws row_idx scenario sector
                    (py_or (cell ws row_idx 4) (VStr "World"))
                    (VStr "Emissions") (cell ws row_idx 6))
                 ycs.
Proof.
  unfold V2.do_row.
  destruct (dict_get sector_map _) as [sector|]; simpl; [|discriminate].
  destruct (dict_get scenario_map _) as [scenario|]; simpl;
    [|rewrite orb_true_r; discriminate].
  destruct (String.eqb sector "") eqn:E1; simpl; [discriminate|].
  destruct (String.eqb scenario "") eqn:E2; simpl; [discriminate|].
  unfold ne_str.
  destruct (eq_str (V2.metric_type_of _) "Emissions") eqn:E3; simpl;
    [|discriminate].
  intros [= <-]. exists sector, scenario.
  apply String.eqb_neq in E1, E2.
  assert (V2.metric_type_of (cell ws row_idx 5) = VStr "Emissions") as ->.
  { destruct (V2.metric_type_of _); try discriminate.
    simpl in E3. apply String.eqb_eq in E3. congruence. }
  repeat split; assumption.
Qed.

End V2Loop.

(** ** What the v2 script emits *)

Lemma v2_in_emit_cell ws row_idx scenario sector region metric_type unit yc i :
  In i (V2.emit_cell ws row_idx scenario sector region metric_type unit yc) ->
  i = {| ins_scenario := scenario;
         ins_sector := sector;
         ins_region := region;
         ins_metric_type := metric_type;
         ins_unit := unit;
         ins_year := snd yc;
         ins_value := cell ws row_idx (fst yc);
         ins_data_source := V2.data_source;
         ins_on_conflict_do_nothing := Some V2.conflict_columns |}
  /\ is_not_none (cell ws row_idx (fst yc)) = true
  /\ is_int_or_float (cell ws row_idx (fst yc)) = true
  /\ ne_zero (cell ws row_idx (fst yc)) = true.
Proof.
  destruct yc as [col_idx year]. unfold V2.emit_cell. simpl.
  destruct (is_not_none _) eqn:E1; simpl; [|contradiction].
  destruct (is_int_or_float _) eqn:E2; simpl; [|contradiction].
  destruct (ne_zero _) eqn:E3; simpl; [|contradiction].
  intros [<-|[]]. repeat split.
Qed.

(** Every statement of a v2 run, traced back to its row and year column. *)
Lemma v2_emitted_inv sector_map scenario_map wb i :
  In i (V2.emitted (V2.extract_with sector_map scenario_map wb)) ->
  exists ws row_idx col_idx year sector scenario,
    wb !! "Database" = Some ws
    /\ (2 <= row_idx <= max_row ws)%nat
    /\ In (col_idx, year) (V2.year_columns ws)
    /\ dict_get sector_map (cell ws row_idx 8) = Some sector
    /\ dict_get scenario_map (cell ws row_idx 2) = Some scenario
    /\ V2.metric_type_of (cell ws row_idx 5) = VStr "Emissions"
    /\ i = {| ins_scenario := scenario;
              ins_sector := sector;
              ins_region := py_or (cell ws row_idx 4) (VStr "World");
              ins_metric_type := VStr "Emissions";
              ins_unit := cell ws row_idx 6;
              ins_year := year;
              ins_value := cell ws row_idx col_idx;
              ins_data_source := V2.data_source;
              ins_on_conflict_do_nothing := Some V2.conflict_columns |}
    /\ is_not_none (cell ws row_idx col_idx) = true
    /\ is_int_or_float (cell ws row_idx col_idx) = true
    /\ ne_zero (cell ws row_idx col_idx) = true.
Proof.
  unfold V2.extract_with.
  destruct (wb !! "Database") as [ws|] eqn:Hws; [|intros []].
  intros H.
  assert (In i (V2.sql_statements
                  (V2.row_loop sector_map scenario_map ws (V2.year_columns ws))))
    as Hi by (destruct (V2.year_columns ws); exact H).
  clear H.
  apply v2_in_row_loop in Hi as (row_idx & stmts & Hr & Hrow & Hin).
  apply v2_do_row_walked in Hrow
    as (sector & scenario & Hsec & Hscen & _ & _ & Hmt & ->).
  apply in_flat_map in Hin as ([col_idx year] & Hyc & Hin).
  apply v2_in_emit_cell in Hin as (-> & H1 & H2 & H3).
  exists ws, row_idx, col_idx, year, sector, scenario.
  repeat split; try assumption; try apply Hr.
Qed.

Lemma v2_emitted_has_clause wb :
  Forall has_clause (V2.emitted (V2.extract_pathways_from_excel wb)).
Proof.
  apply List.Forall_forall. intros i Hi.
  apply v2_emitted_inv in Hi
    as (ws & r & c & y & sec & scen & _ & _ & _ & _ & _ & _ & -> & _).
  reflexivity.
Qed.

(** C1 (v2 script).  Every statement the run emits carries
    [ON CONFLICT (scenario, sector, region, metric_type, unit, year) DO NOTHING].
    Hence, whatever the table holds, running the emitted statements leaves the
    rows already there in place and unchanged and only adds rows behind them;
    running the statements a second time changes nothing; and from an empty
    table the result holds each conflict key once, and is the same after two
    runs as after one. *)
Theorem v2_statements_idempotent (py_str : pyval -> string) (wb : workbook) :
  let stmts := V2.emitted (V2.extract_pathways_from_excel wb) in
  Forall (fun i => ins_on_conflict_do_nothing i
                   = Some [Scenario; Sector; Region; MetricType; Unit; Year])
         stmts
  /\ exec_all py_str (stmts ++ stmts) [] = exec_all py_str stmts []
  /\ (forall table,
        exec_all py_str stmts (exec_all py_str stmts table)
        = exec_all py_str stmts table)
  /\ (forall table, exists added, exec_all py_str stmts table = table ++ added)
  /\ NoDup (map key_of (exec_all py_str stmts [])).
Proof.
  intros stmts.
  pose proof (v2_emitted_has_clause wb) as Hc. fold stmts in Hc.
  assert (Forall (fun i => exists cols, ins_on_conflict_do_nothing i = Some cols)
                 stmts) as Hc'.
  { eapply List.Forall_impl; [|exact Hc]. intros i Hi. eexists. exact Hi. }
  split; [exact Hc|]. split; [|split; [|split]].
  - rewrite exec_all_app. apply exec_all_idempotent. exact Hc'.
  - intros table. apply exec_all_idempotent. exact Hc'.
  - intros table. apply exec_all_extends.
  - apply exec_all_keys; [exact Hc|]. constructor.
Qed.

(** The output file of the v2 script opens with
    [DELETE FROM sbti_pathways WHERE data_source LIKE '%IEA%'].  Run as a
    whole on the table it has filled, the file first removes every row it
    had written and then writes them again: the table ends as it was. *)
Lemma v2_file_rerun (py_str : pyval -> string) (wb : workbook) :
  let stmts := V2.emitted (V2.extract_pathways_from_excel wb) in
  exec_delete_iea (exec_file_v2 py_str stmts []) = []
  /\ exec_file_v2 py_str stmts (exec_file_v2 py_str stmts [])
     = exec_file_v2 py_str stmts [].
Proof.
  intros stmts.
  assert (exec_delete_iea (exec_file_v2 py_str stmts []) = []) as Hdel.
  { unfold exec_file_v2. simpl.
    assert (Forall (fun r => row_data_source r = V2.data_source)
                   (exec_all py_str stmts [])) as H.
    { apply exec_all_data_source; [|constructor].
      apply List.Forall_forall. intros i Hi.
      apply v2_emitted_inv in Hi
        as (ws & r & c & y & sec & scen & _ & _ & _ & _ & _ & _ & -> & _).
      reflexivity. }
    unfold exec_delete_iea.
    induction H as [|r l Hr _ IH]; [reflexivity|].
    simpl. rewrite Hr. simpl. exact IH. }
  split; [exact Hdel|].
  unfold exec_file_v2 at 1. rewrite Hdel. reflexivity.
Qed.

(** ** The year columns *)

Lemma in_flat_map_pick {A B : Type} (f : A -> option B) (l : list A) a b :
  In (a, b)
     (flat_map (fun a => match f a with Some b => [(a, b)] | None => [] end) l)
  <-> In a l /\ f a = Some b.
Proof.
  rewrite in_flat_map. split.
  - intros (a' & Ha' & H). destruct (f a') as [b'|] eqn:E; [|contradiction].
    destruct H as [[= <- <-]|[]]. split; assumption.
  - intros [Ha Hf]. exists a. split; [exact Ha|]. rewrite Hf. left. reflexivity.
Qed.

Lemma seq_strongly_sorted n : forall a, StronglySorted lt (seq a n).
Proof.
  induction n as [|n IH]; intros a; simpl; constructor.
  - apply IH.
  - apply List.Forall_forall. intros x Hx. apply in_seq in Hx. lia.
Qed.

Lemma flat_map_pick_sorted {B : Type} (f : nat -> option B) (l : list nat) :
  StronglySorted lt l ->
  StronglySorted lt
    (map fst
       (flat_map (fun a => match f a with Some b => [(a, b)] | None => [] end) l)).
Proof.
  induction 1 as [|a l Hs IH Ha]; simpl; [constructor|].
  destruct (f a) as [b|]; simpl; [|exact IH].
  constructor; [exact IH|].
  apply List.Forall_forall. intros x Hx.
  apply in_map_iff in Hx as ([x' b'] & <- & Hx).
  apply in_flat_map_pick in Hx as [Hx _].
  rewrite List.Forall_forall in Ha. apply Ha. exact Hx.
Qed.

Lemma v2_header_year_spec header year :
  V2.header_year header = Some year
  <-> exists s, header = VStr s /\ int_of_str s = Some year
                /\ 2014 <= year <= 2050.
Proof.
  unfold V2.header_year. split.
  - destruct header as [|s| | | | | | |]; simpl; try discriminate;
      try (rewrite andb_false_r; discriminate).
    destruct (negb (String.eqb s "")); simpl; [|discriminate].
    destruct (int_of_str s) as [y|] eqn:Hs; [|discriminate].
    destruct ((2014 <=? y) && (y <=? 2050)) eqn:E; [|discriminate].
    intros [= <-]. exists s. apply andb_prop in E as [E1 E2].
    apply Z.leb_le in E1, E2. repeat split; assumption.
  - intros (s & -> & Hs & Hy). simpl.
    destruct (String.eqb s "") eqn:E.
    + apply String.eqb_eq in E. subst s. discriminate.
    + simpl. rewrite Hs.
      destruct Hy as [Hy1 Hy2]. apply Z.leb_le in Hy1, Hy2.
      rewrite Hy1, Hy2. reflexivity.
Qed.

Lemma v2_year_columns_in ws col year :
  In (col, year) (V2.year_columns ws)
  <-> (9 <= col <= max_column ws)%nat
      /\ V2.header_year (cell ws 1 col) = Some year.
Proof.
  unfold V2.year_columns.
  rewrite (in_flat_map_pick (fun c => V2.header_year (cell ws 1 c))).
  rewrite in_seq. split; intros [H1 H2]; (split; [lia|exact H2]).
Qed.

Lemma v2_year_in_range ws col year :
  In (col, year) (V2.year_columns ws) -> 2014 <= year <= 2050.
Proof.
  intros H. apply v2_year_columns_in in H as [_ H].
  apply v2_header_year_spec in H as (s & _ & _ & H). exact H.
Qed.

(** C2, as stated, fails on the v2 scanner: in the header
    [.., 2020, "2021", "2021"] the numeric cell of column 9 resolves to a
    year in range by the specification's reading, yet the scanner passes it over; and
    the year 2021, which stands in two cells, is returned twice. *)
Lemma v2_scanner_not_as_specified :
  V2.year_columns header_numeric_and_repeated = [(10%nat, 2021); (11%nat, 2021)]
  /\ spec_resolve_year 2014 2050 (cell header_numeric_and_repeated 1 9)
     = Some 2020
  /\ ~ In (9%nat, 2020) (V2.year_columns header_numeric_and_repeated)
  /\ ~ NoDup (map snd (V2.year_columns header_numeric_and_repeated))
  /\ ~ scanner_as_specified V2.year_columns.
Proof.
  assert (V2.year_columns header_numeric_and_repeated
          = [(10%nat, 2021); (11%nat, 2021)]) as E by reflexivity.
  assert (~ NoDup (map snd (V2.year_columns header_numeric_and_repeated)))
    as Hdup.
  { rewrite E. simpl. intros H. inversion H as [|? ? Hn _]; subst.
    apply Hn. left. }
  repeat split; try assumption.
  - rewrite E. simpl. intros [[=]|[[=]|[]]].
  - intros H. destruct (H header_numeric_and_repeated) as (_ & _ & Hnd).
    exact (Hdup Hnd).
Qed.

(** ** Floats within the year range

    A binary64 value between 2014 and 2050 has exponent -42 (below 2048) or
    -41 (from 2048 on) and a 53-bit mantissa, so truncating it gives an
    integer in the same range. *)

Lemma digits2_pos_size m : digits2_pos m = Pos.size m.
Proof. induction m; simpl; congruence. Qed.

Lemma canonical_53 m e :
  -1021 <= e ->
  canonical_mantissa prec emax m e = true ->
  4503599627370496 <= Z.pos m < 9007199254740992.
Proof.
  unfold canonical_mantissa, fexp, emin, prec, emax.
  intros He H. (apply Z.eqb_eq in H).
  (rewrite digits2_pos_size in H).
  assert (Z.pos (Pos.size m) = 53) as Hs by ((lia)).
  assert (Pos.size m = 53%positive) as Hs' by (congruence).
  pose proof (Pos.size_gt m) as Hgt. pose proof (Pos.size_le m) as Hle.
  (rewrite Hs' in Hgt, Hle).
  (change (2 ^ 53)%positive with 9007199254740992%positive in Hgt, Hle).
  apply Pos2Z.pos_lt_pos in Hgt. apply Pos2Z.pos_le_pos in Hle.
  rewrite Pos2Z.inj_xO in Hle. clear - Hgt Hle.
  split; [(lia)| (exact Hgt)].
Qed.

Lemma pos_compare_le (a b : positive) :
  match PosDef.Pos.compare_cont Eq a b with Gt => false | _ => true end = true ->
  Z.pos a <= Z.pos b.
Proof.
  change (PosDef.Pos.compare_cont Eq a b) with (Pos.compare a b).
  destruct (Pos.compare_spec a b) as [E|E|E]; intros H.
  - subst. apply Z.le_refl.
  - apply Z.lt_le_incl. exact E.
  - discriminate.
Qed.

Lemma shift_42 m :
  4503599627370496 <= Z.pos m < 9007199254740992 ->
  8857665673363456 <= Z.pos m ->
  2014 <= Z.shiftl (Z.pos m) (-42) <= 2050.
Proof.
  intros Hc Hm.
  change (Z.shiftl (Z.pos m) (-42)) with (Z.shiftr (Z.pos m) 42).
  rewrite Z.shiftr_div_pow2 by (apply Pos2Z.is_nonneg).
  change (2 ^ 42) with 4398046511104.
  split.
  - apply Z.div_le_lower_bound; lia.
  - assert (Z.pos m / 4398046511104 < 2048) as HH.
    { apply Z.div_lt_upper_bound; lia. }
    lia.
Qed.
Lemma shift_41 m :
  4503599627370496 <= Z.pos m < 9007199254740992 ->
  Z.pos m <= 4507997673881600 ->
  2014 <= Z.shiftl (Z.pos m) (-41) <= 2050.
Proof.
  intros Hc Hm.
  change (Z.shiftl (Z.pos m) (-41)) with (Z.shiftr (Z.pos m) 41).
  rewrite Z.shiftr_div_pow2 by (apply Pos2Z.is_nonneg).
  change (2 ^ 41) with 2199023255552.
  split.
  - apply Z.div_le_lower_bound; lia.
  - apply Z.div_le_upper_bound; lia.
Qed.

Lemma sfleb_finite_pos m1 e1 m2 e2 :
  SFleb (S754_finite false m1 e1) (S754_finite false m2 e2) = true ->
  e1 < e2 \/ (e1 = e2 /\ Z.pos m1 <= Z.pos m2).
Proof.
  unfold SFleb, SFcompare.
  destruct (Z.compare_spec e1 e2) as [E|E|E]; intros H.
  - right. split; [exact E|]. apply pos_compare_le. exact H.
  - left. exact E.
  - discriminate.
Qed.

Lemma sf_year_range m e :
  canonical_mantissa prec emax m e = true ->
  SFleb (S754_finite false 8857665673363456 (-42)) (S754_finite false m e) = true ->
  SFleb (S754_finite false m e) (S754_finite false 4507997673881600 (-41)) = true ->
  2014 <= Z.shiftl (Z.pos m) e <= 2050.
Proof.
  intros Hc H1 H2.
  apply sfleb_finite_pos in H1, H2.
  assert (e = -42 \/ e = -41) as E by (clear Hc; lia).
  destruct E as [E|E]; rewrite E in *.
  - apply canonical_53 in Hc; [|clear; lia].
    apply shift_42; [exact Hc|]. clear Hc H2. lia.
  - apply canonical_53 in Hc; [|clear; lia].
    apply shift_41; [exact Hc|]. clear Hc H1. lia.
Qed.

Lemma int_of_float_year x :
  (2014 <=? x)%float = true -> (x <=? 2050)%float = true ->
  exists year, int_of_float x = Some year /\ 2014 <= year <= 2050.
Proof.
  rewrite !leb_spec. unfold int_of_float.
  pose proof (Prim2SF_valid x) as Hv.
  change (Prim2SF 2014) with (S754_finite false 8857665673363456 (-42)).
  change (Prim2SF 2050) with (S754_finite false 4507997673881600 (-41)).
  destruct (Prim2SF x) as [s|s| |s m e].
  - destruct s; discriminate.
  - destruct s; discriminate.
  - discriminate.
  - destruct s; [discriminate|].
    intros H1 H2. eexists. split; [reflexivity|].
    apply sf_year_range; try assumption.
    unfold SpecFloat.valid_binary, bounded in Hv.
    apply andb_prop in Hv as [Hc _]. exact Hc.
Qed.

(** ** The year columns of the v1 script *)

Lemma flat_map_enumerate_row {B : Type} (g : nat -> pyval)
    (F : nat * pyval -> list B) n : forall a,
  flat_map F (combine (seq a n) (map g (seq (S a) n)))
  = flat_map (fun i => F (i, g (S i))) (seq a n).
Proof.
  induction n as [|n IH]; intros a; simpl; [reflexivity|].
  rewrite IH. reflexivity.
Qed.

(** The v1 scan, column by column: index [i] is column [i + 1]. *)
Lemma v1_year_columns_by_column ws :
  V1.year_columns ws
  = flat_map
      (fun i => match V1.header_year (cell ws 1 (S i)) with
                | Some year => [(i, year)]
                | None => []
                end)
      (seq 0 (max_column ws)).
Proof.
  unfold V1.year_columns, V1.enumerate, V1.headers, row_cells.
  rewrite length_map, length_seq.
  apply (flat_map_enumerate_row (cell ws 1)).
Qed.

Lemma v1_year_columns_in ws i year :
  In (i, year) (V1.year_columns ws)
  <-> (i < max_column ws)%nat
      /\ V1.header_year (cell ws 1 (S i)) = Some year.
Proof.
  rewrite v1_year_columns_by_column.
  rewrite (in_flat_map_pick (fun i => V1.header_year (cell ws 1 (S i)))).
  rewrite in_seq. split; intros [H1 H2]; (split; [lia|exact H2]).
Qed.

Lemma v1_header_year_spec header year :
  V1.header_year header = Some year
  <-> (header = VInt year /\ 2014 <= year <= 2050)
      \/ (exists x, header = VFloat x
                    /\ (2014 <=? x)%float = true /\ (x <=? 2050)%float = true
                    /\ int_of_float x = Some year).
Proof.
  unfold V1.header_year. split.
  - destruct header as [|s|n|x|b|t|t|t|t]; simpl; try discriminate.
    + destruct ((2014 <=? n) && (n <=? 2050)) eqn:E; [|discriminate].
      intros [= <-]. left. apply andb_prop in E as [E1 E2].
      apply Z.leb_le in E1, E2. repeat split; assumption.
    + destruct ((2014 <=? x)%float && (x <=? 2050)%float) eqn:E;
        [|discriminate].
      apply andb_prop in E as [E1 E2]. intros H. right. exists x.
      repeat split; assumption.
    + destruct b; discriminate.
  - intros [[-> [H1 H2]]|(x & -> & H1 & H2 & H3)]; simpl.
    + apply Z.leb_le in H1, H2. rewrite H1, H2. reflexivity.
    + rewrite H1, H2. exact H3.
Qed.

Lemma v1_header_year_range header year :
  V1.header_year header = Some year -> 2014 <= year <= 2050.
Proof.
  intros H. apply v1_header_year_spec in H
    as [[_ H]|(x & _ & H1 & H2 & H3)]; [exact H|].
  destruct (int_of_float_year x H1 H2) as (y & Hy & Hr).
  congruence.
Qed.

Lemma v1_year_in_range ws i year :
  In (i, year) (V1.year_columns ws) -> 2014 <= year <= 2050.
Proof.
  intros H. apply v1_year_columns_in in H as [_ H].
  eapply v1_header_year_range. exact H.
Qed.

(** C2, amended.  The v2 scanner returns exactly the pairs (column, year),
    for the columns 9 to [max_column], whose header cell is a string that
    [int()] reads as an integer within [2014, 2050]; a cell that is not a
    string is never resolved.  The v1 scanner returns exactly the pairs
    (0-based index, year) whose header cell is an [int] within the range or a
    [float] within the range, truncated; a string is never resolved.  Both
    return the pairs left to right, one per column at most, and with every
    year within the range.  (The scanners are total functions: the
    [ValueError] of [int()] is the [None] of [int_of_str].) *)
Theorem scanners_resolve_one_kind_each (ws : worksheet) :
  (forall col year,
      In (col, year) (V2.year_columns ws)
      <-> (9 <= col <= max_column ws)%nat
          /\ exists s, cell ws 1 col = VStr s /\ int_of_str s = Some year
                       /\ 2014 <= year <= 2050)
  /\ (forall col year,
        is_str (cell ws 1 col) = false -> ~ In (col, year) (V2.year_columns ws))
  /\ StronglySorted lt (map fst (V2.year_columns ws))
  /\ (forall i year,
        In (i, year) (V1.year_columns ws)
        <-> (i < max_column ws)%nat
            /\ (cell ws 1 (S i) = VInt year /\ 2014 <= year <= 2050
                \/ exists x, cell ws 1 (S i) = VFloat x
                             /\ (2014 <=? x)%float = true
                             /\ (x <=? 2050)%float = true
                             /\ int_of_float x = Some year))
  /\ (forall i year,
        is_str (cell ws 1 (S i)) = true -> ~ In (i, year) (V1.year_columns ws))
  /\ StronglySorted lt (map fst (V1.year_columns ws))
  /\ (forall i year, In (i, year) (V1.year_columns ws) -> 2014 <= year <= 2050).
Proof.
  assert (forall col year,
      In (col, year) (V2.year_columns ws)
      <-> (9 <= col <= max_column ws)%nat
          /\ exists s, cell ws 1 col = VStr s /\ int_of_str s = Some year
                       /\ 2014 <= year <= 2050) as H2.
  { intros col year. rewrite v2_year_columns_in, v2_header_year_spec.
    reflexivity. }
  assert (forall i year,
        In (i, year) (V1.year_columns ws)
        <-> (i < max_column ws)%nat
            /\ (cell ws 1 (S i) = VInt year /\ 2014 <= year <= 2050
                \/ exists x, cell ws 1 (S i) = VFloat x
                             /\ (2014 <=? x)%float = true
                             /\ (x <=? 2050)%float = true
                             /\ int_of_float x = Some year)) as H1.
  { intros i year. rewrite v1_year_columns_in, v1_header_year_spec.
    reflexivity. }
  split; [exact H2|]. split; [|split; [|split; [exact H1|split; [|split]]]].
  - intros col year Hs Hin. apply H2 in Hin as (_ & s & Hc & _).
    rewrite Hc in Hs. discriminate.
  - unfold V2.year_columns.
    apply (flat_map_pick_sorted (fun c => V2.header_year (cell ws 1 c))).
    apply seq_strongly_sorted.
  - intros i year Hs Hin.
    apply H1 in Hin as (_ & [[Hc _]|(x & Hc & _)]);
      rewrite Hc in Hs; discriminate.
  - rewrite v1_year_columns_by_column.
    apply (flat_map_pick_sorted (fun i => V1.header_year (cell ws 1 (S i)))).
    apply seq_strongly_sorted.
  - apply v1_year_in_range.
Qed.

(** ** The row rules of the v2 script *)

Lemma v2_sector_values_nonempty k v : V2.sector_map !! k = Some v -> v <> "".
Proof.
  assert (map_Forall (fun _ v => v <> "") V2.sector_map) as H.
  { apply map_Forall_to_list. vm_compute map_to_list.
    repeat constructor; discriminate. }
  apply H.
Qed.

Lemma v2_scenario_values_nonempty k v : V2.scenario_map !! k = Some v -> v <> "".
Proof.
  assert (map_Forall (fun _ v => v <> "") V2.scenario_map) as H.
  { apply map_Forall_to_list. vm_compute map_to_list.
    repeat constructor; discriminate. }
  apply H.
Qed.

Lemma dict_get_is_key d v : is_key d v <-> exists x, dict_get d v = Some x.
Proof.
  unfold is_key. split.
  - intros (s & -> & x & Hx). exists x. exact Hx.
  - intros [x Hx]. destruct v as [|s| | | | | | |]; try discriminate.
    exists s. split; [reflexivity|]. exists x. exact Hx.
Qed.

Lemma dict_get_not_key d v : ~ is_key d v <-> dict_get d v = None.
Proof.
  rewrite dict_get_is_key. destruct (dict_get d v) as [x|]; split.
  - intros H. exfalso. apply H. exists x. reflexivity.
  - discriminate.
  - reflexivity.
  - intros _ [x Hx]. discriminate.
Qed.

(** When the v2 loop body takes the counted [continue] of lines 86-88. *)
Lemma v2_do_row_skipped ws ycs row_idx :
  V2.do_row V2.sector_map V2.scenario_map ws ycs row_idx = V2.Skipped
  <-> dict_get V2.sector_map (cell ws row_idx 8) = None
      \/ dict_get V2.scenario_map (cell ws row_idx 2) = None.
Proof.
  unfold V2.do_row.
  destruct (dict_get V2.sector_map _) as [sector|] eqn:Hsec; simpl.
  - destruct (dict_get V2.scenario_map _) as [scenario|] eqn:Hscen; simpl.
    + assert (String.eqb sector "" = false) as ->.
      { apply String.eqb_neq.
        destruct (cell ws row_idx 8); try discriminate.
        eapply v2_sector_values_nonempty. exact Hsec. }
      assert (String.eqb scenario "" = false) as ->.
      { apply String.eqb_neq.
        destruct (cell ws row_idx 2); try discriminate.
        eapply v2_scenario_values_nonempty. exact Hscen. }
      simpl. split.
      * destruct (ne_str _ _); discriminate.
      * intros [H|H]; discriminate.
    + rewrite orb_true_r. split; [right|]; reflexivity.
  - split; [left|]; reflexivity.
Qed.

(** C3 (v2 script).  The metric type of a row is "Emissions" for the raw
    label "Emissions", "Activity" for the raw labels "Electricity" and
    "Activity", and the raw value itself, whatever it is ([None] and unknown
    strings included), in every other case.  The raw label plays no part in
    whether the row is skipped and counted as unrecognized.  (Lines 91-92 of
    the script then keep only the rows whose metric type is "Emissions".) *)
Theorem v2_metric_type_rule :
  V2.metric_type_of (VStr "Emissions") = VStr "Emissions"
  /\ V2.metric_type_of (VStr "Electricity") = VStr "Activity"
  /\ V2.metric_type_of (VStr "Activity") = VStr "Activity"
  /\ (forall raw,
        raw <> VStr "Emissions" -> raw <> VStr "Electricity" ->
        raw <> VStr "Activity" ->
        V2.metric_type_of raw = raw)
  /\ V2.metric_type_of VNone = VNone
  /\ V2.metric_type_of (VStr "Heat") = VStr "Heat"
  /\ (forall ws ycs row_idx,
        V2.do_row V2.sector_map V2.scenario_map ws ycs row_idx = V2.Skipped
        <-> dict_get V2.sector_map (cell ws row_idx 8) = None
            \/ dict_get V2.scenario_map (cell ws row_idx 2) = None).
Proof.
  repeat split; try reflexivity; try apply v2_do_row_skipped.
  intros raw H1 H2 H3. unfold V2.metric_type_of, in_strs.
  destruct raw as [|s| | | | | | |]; try reflexivity. simpl.
  destruct (String.eqb_spec s "Emissions") as [->|_]; [congruence|].
  destruct (String.eqb_spec s "Electricity") as [->|_]; [congruence|].
  destruct (String.eqb_spec s "Activity") as [->|_]; [congruence|].
  reflexivity.
Qed.

(** C4 (v2 script).  A row whose raw sector label or raw scenario label is
    not exactly a key of its mapping takes the counted [continue] and
    contributes no statement; a row that does not take it has both labels
    among the keys.  The match is exact: "cement", "Cement " and
    "sbti 1.5c" are no keys. *)
Theorem v2_unmapped_row_rejected (ws : worksheet) (ycs : list (nat * Z))
    (row_idx : nat) :
  (~ is_key V2.sector_map (cell ws row_idx 8)
   \/ ~ is_key V2.scenario_map (cell ws row_idx 2) ->
   V2.do_row V2.sector_map V2.scenario_map ws ycs row_idx = V2.Skipped
   /\ V2.row_statements V2.sector_map V2.scenario_map ws ycs row_idx = [])
  /\ (V2.do_row V2.sector_map V2.scenario_map ws ycs row_idx <> V2.Skipped ->
      is_key V2.sector_map (cell ws row_idx 8)
      /\ is_key V2.scenario_map (cell ws row_idx 2))
  /\ ~ is_key V2.sector_map (VStr "cement")
  /\ ~ is_key V2.sector_map (VStr "Cement ")
  /\ ~ is_key V2.scenario_map (VStr "sbti 1.5c").
Proof.
  split; [|split].
  - intros H.
    assert (V2.do_row V2.sector_map V2.scenario_map ws ycs row_idx = V2.Skipped)
      as Hs.
    { apply v2_do_row_skipped.
      destruct H as [H|H]; [left|right]; apply dict_get_not_key; exact H. }
    split; [exact Hs|]. unfold V2.row_statements. rewrite Hs. reflexivity.
  - intros H. rewrite !dict_get_is_key.
    destruct (dict_get V2.sector_map (cell ws row_idx 8)) as [x|] eqn:E1;
      [|exfalso; apply H, v2_do_row_skipped; left; exact E1].
    destruct (dict_get V2.scenario_map (cell ws row_idx 2)) as [y|] eqn:E2;
      [|exfalso; apply H, v2_do_row_skipped; right; exact E2].
    split; eexists; reflexivity.
  - repeat split; apply dict_get_not_key; reflexivity.
Qed.

(** C9 (v2 script).  A row whose raw sector label is no key of the sector
    mapping adds no statement, and the iteration of the loop for that row
    raises [skipped_rows] by exactly one and leaves [processed_rows] alone. *)
Theorem v2_unmapped_sector_counted (ws : worksheet) (ycs : list (nat * Z))
    (st : V2.state) (row_idx : nat) :
  ~ is_key V2.sector_map (cell ws row_idx 8) ->
  let st' := V2.step V2.sector_map V2.scenario_map ws ycs st row_idx in
  V2.row_statements V2.sector_map V2.scenario_map ws ycs row_idx = []
  /\ V2.sql_statements st' = V2.sql_statements st
  /\ V2.skipped_rows st' = S (V2.skipped_rows st)
  /\ V2.processed_rows st' = V2.processed_rows st.
Proof.
  intros H st'.
  assert (V2.do_row V2.sector_map V2.scenario_map ws ycs row_idx = V2.Skipped)
    as Hs.
  { apply v2_do_row_skipped. left. apply dict_get_not_key. exact H. }
  subst st'. unfold V2.step, V2.row_statements. rewrite Hs.
  repeat split.
Qed.

(** The row ["Chemicals"] of the sample sheet: skipped and counted. *)
Lemma v2_unmapped_sector_counted_witness :
  V2.row_statements V2.sector_map V2.scenario_map sample_sheet
    (V2.year_columns sample_sheet) 2 = []
  /\ V2.sql_statements
       (V2.step V2.sector_map V2.scenario_map sample_sheet
          (V2.year_columns sample_sheet) V2.init 2) = []
  /\ V2.skipped_rows
       (V2.step V2.sector_map V2.scenario_map sample_sheet
          (V2.year_columns sample_sheet) V2.init 2) = 1%nat
  /\ V2.processed_rows
       (V2.step V2.sector_map V2.scenario_map sample_sheet
          (V2.year_columns sample_sheet) V2.init 2) = 0%nat.
Proof.
  apply (v2_unmapped_sector_counted sample_sheet
           (V2.year_columns sample_sheet) V2.init 2).
  apply dict_get_not_key. reflexivity.
Defined.

Lemma v2_row_statements_walked sector_map scenario_map ws ycs row_idx i :
  In i (V2.row_statements sector_map scenario_map ws ycs row_idx) ->
  exists stmts,
    V2.do_row sector_map scenario_map ws ycs row_idx = V2.Walked stmts
    /\ In i stmts.
Proof.
  unfold V2.row_statements.
  destruct (V2.do_row _ _ _ _ _) as [| |stmts]; try contradiction.
  intros H. exists stmts. split; [reflexivity|exact H].
Qed.

Lemma flat_map_all_nil {A B : Type} (f : A -> list B) (l : list A) :
  (forall x, In x l -> f x = []) -> flat_map f l = [].
Proof.
  induction l as [|a l IH]; intros H; simpl; [reflexivity|].
  rewrite (H a) by (left; reflexivity). apply IH.
  intros x Hx. apply H. right. exact Hx.
Qed.

(** C5, on the code.  When the header holds no year column the v2 run finds
    no year column and writes no statement, whatever the data rows hold, but
    it does not end normally: the summary line that prints
    [year_columns[0][1]] raises [IndexError]. *)
Theorem v2_no_year_columns_raises (wb : workbook) (ws : worksheet) :
  wb !! "Database" = Some ws ->
  V2.year_columns ws = [] ->
  exists r,
    V2.extract_pathways_from_excel wb = Uncaught IndexError r
    /\ V2.rep_year_columns r = []
    /\ V2.rep_statements r = [].
Proof.
  intros Hws Hy. unfold V2.extract_pathways_from_excel, V2.extract_with.
  rewrite Hws, Hy. eexists. split; [reflexivity|]. split; [reflexivity|].
  simpl. rewrite v2_row_loop_statements.
  apply flat_map_all_nil. intros row_idx _. unfold V2.row_statements.
  destruct (V2.do_row _ _ _ _ _) as [| |stmts] eqn:E; try reflexivity.
  apply v2_do_row_walked in E as (? & ? & _ & _ & _ & _ & _ & ->).
  reflexivity.
Qed.

(** A header with the cells "Total" and "1990" after the metadata columns
    and one otherwise valid data row: the run ends in [IndexError]. *)
Lemma v2_no_year_columns_raises_witness :
  exists r,
    V2.extract_pathways_from_excel workbook_without_years
    = Uncaught IndexError r
    /\ V2.rep_year_columns r = []
    /\ V2.rep_statements r = [].
Proof.
  apply (v2_no_year_columns_raises workbook_without_years sheet_without_years);
    reflexivity.
Defined.

(** C6 (v2 script).  On the example sheet the run ends normally with exactly
    one statement, the expected record for 2020; the cell under "2021" holds
    0 and gives no statement.  This holds with the two one-entry mappings of
    the example and with the script's own tables alike. *)
Theorem v2_round_trip_example :
  let expected :=
    Completed
      {| V2.rep_statements :=
           [ {| ins_scenario := "SBTi_1.5C";
                ins_sector := "cement";
                ins_region := VStr "World";
                ins_metric_type := VStr "Emissions";
                ins_unit := VStr "MtCO2";
                ins_year := 2020;
                ins_value := VFloat 12.5;
                ins_data_source := "IEA SBTi Tool v2.4";
                ins_on_conflict_do_nothing :=
                  Some [Scenario; Sector; Region; MetricType; Unit; Year] |} ];
         V2.rep_year_columns := [(9%nat, 2020); (10%nat, 2021)];
         V2.rep_processed_rows := 1;
         V2.rep_skipped_rows := 0 |} in
  V2.extract_with {[ "Cement" := "cement" ]} {[ "SBTi 1.5C" := "SBTi_1.5C" ]}
    example_workbook = expected
  /\ V2.extract_pathways_from_excel example_workbook = expected.
Proof.
  split; vm_compute; reflexivity.
Qed.

(** C7 (v2 script).  When the region cell of a row is empty ([None] or the
    empty string), every statement written for the row carries the region
    "World".  The cell is read with [ws.cell], so a row too short to have a
    fourth column is the same case. *)
Theorem v2_empty_region_is_world (ws : worksheet) (ycs : list (nat * Z))
    (row_idx : nat) (i : sql_insert) :
  cell ws row_idx 4 = VNone \/ cell ws row_idx 4 = VStr "" ->
  In i (V2.row_statements V2.sector_map V2.scenario_map ws ycs row_idx) ->
  ins_region i = VStr "World".
Proof.
  intros Hcell Hin.
  apply v2_row_statements_walked in Hin as (stmts & Hrow & Hin).
  apply v2_do_row_walked in Hrow as (sec & scen & _ & _ & _ & _ & _ & ->).
  apply in_flat_map in Hin as (yc & _ & Hin).
  apply v2_in_emit_cell in Hin as (-> & _). simpl.
  destruct Hcell as [-> | ->]; reflexivity.
Qed.

(** The third row of the sample sheet has no region and one usable cell. *)
Lemma v2_empty_region_is_world_witness :
  In no_region_statement
     (V2.row_statements V2.sector_map V2.scenario_map sample_sheet
        (V2.year_columns sample_sheet) 3)
  /\ ins_region no_region_statement = VStr "World".
Proof.
  assert (In no_region_statement
            (V2.row_statements V2.sector_map V2.scenario_map sample_sheet
               (V2.year_columns sample_sheet) 3)) as Hin
    by (vm_compute; left; reflexivity).
  split; [exact Hin|].
  apply (v2_empty_region_is_world sample_sheet
           (V2.year_columns sample_sheet) 3 no_region_statement);
    [left; reflexivity|exact Hin].
Defined.

(** C10 (v2 script).  In a row that reaches the year columns, a cell holding
    [True] under a year column passes the cell test and is written as a
    statement for that year with the value [True]; a cell holding [False]
    gives no statement, and no statement of the row holds the value [False]. *)
Theorem v2_boolean_cells (ws : worksheet) (ycs : list (nat * Z))
    (row_idx : nat) (stmts : list sql_insert) (col : nat) (year : Z) :
  V2.do_row V2.sector_map V2.scenario_map ws ycs row_idx = V2.Walked stmts ->
  In (col, year) ycs ->
  (cell ws row_idx col = VBool true ->
   exists i, In i stmts /\ ins_year i = year /\ ins_value i = VBool true)
  /\ (cell ws row_idx col = VBool false ->
      forall scenario sector region metric_type unit,
        V2.emit_cell ws row_idx scenario sector region metric_type unit
          (col, year) = [])
  /\ (forall i, In i stmts -> ins_value i <> VBool false).
Proof.
  intros Hrow Hyc.
  apply v2_do_row_walked in Hrow as (sec & scen & _ & _ & _ & _ & _ & ->).
  split; [|split].
  - intros Hcell. eexists. split.
    + apply in_flat_map. exists (col, year). split; [exact Hyc|].
      unfold V2.emit_cell. rewrite Hcell. simpl. left. reflexivity.
    + split; reflexivity.
  - intros Hcell *. unfold V2.emit_cell. rewrite Hcell. reflexivity.
  - intros i Hin. apply in_flat_map in Hin as (yc & _ & Hin).
    apply v2_in_emit_cell in Hin as (-> & _ & _ & Hz). simpl.
    intros E. rewrite E in Hz. discriminate.
Qed.

(** The fourth row of the sample sheet holds [True] under "2020". *)
Lemma v2_boolean_cells_witness :
  exists i,
    In i (V2.row_statements V2.sector_map V2.scenario_map sample_sheet
            (V2.year_columns sample_sheet) 4)
    /\ ins_year i = 2020 /\ ins_value i = VBool true.
Proof.
  apply (v2_boolean_cells sample_sheet (V2.year_columns sample_sheet) 4
           (V2.row_statements V2.sector_map V2.scenario_map sample_sheet
              (V2.year_columns sample_sheet) 4) 9 2020);
    [vm_compute; reflexivity|vm_compute; left; reflexivity|reflexivity].
Defined.

(** ** The row loop of the v1 script *)

Lemma v1_fold_statements (f : nat -> list sql_insert) rows : forall acc,
  fold_left (fun stmts row_idx => stmts ++ f row_idx) rows acc
  = acc ++ flat_map f rows.
Proof.
  induction rows as [|r rows IH]; intros acc; simpl.
  - symmetry. apply app_nil_r.
  - rewrite IH. symmetry. apply app_assoc.
Qed.

Lemma v1_in_emit_cell row scenario sector region metric_type unit yc i :
  In i (V1.emit_cell row scenario sector region metric_type unit yc) ->
  i = {| ins_scenario := scenario;
         ins_sector := sector;
         ins_region := region;
         ins_metric_type := VStr metric_type;
         ins_unit := unit;
         ins_year := snd yc;
         ins_value := nth (fst yc) row VNone;
         ins_data_source := V1.data_source;
         ins_on_conflict_do_nothing := None |}
  /\ (fst yc < length row)%nat
  /\ is_not_none (nth (fst yc) row VNone) = true
  /\ is_int_or_float (nth (fst yc) row VNone) = true
  /\ ne_zero (nth (fst yc) row VNone) = true.
Proof.
  destruct yc as [col_idx year]. unfold V1.emit_cell. simpl.
  destruct (Nat.ltb_spec col_idx (length row)) as [Hlt|_]; [|contradiction].
  destruct (is_not_none _) eqn:E1; simpl; [|contradiction].
  destruct (is_int_or_float _) eqn:E2; simpl; [|contradiction].
  destruct (ne_zero _) eqn:E3; simpl; [|contradiction].
  intros [<-|[]]. repeat split. exact Hlt.
Qed.

Lemma v1_in_values d v :
  V1.in_values d v = true <-> exists s k, v = VStr s /\ d !! k = Some s.
Proof.
  unfold V1.in_values. rewrite existsb_exists. split.
  - intros (s & Hs & Hv). destruct v as [|t| | | | | | |]; try discriminate.
    simpl in Hv. apply String.eqb_eq in Hv. subst t.
    apply in_map_iff in Hs as ([k s'] & <- & Hin).
    apply list_elem_of_In, elem_of_map_to_list in Hin.
    exists s', k. split; [reflexivity|exact Hin].
  - intros (s & k & -> & Hk). exists s. split.
    + apply in_map_iff. exists (k, s). split; [reflexivity|].
      apply list_elem_of_In, elem_of_map_to_list. exact Hk.
    + simpl. apply String.eqb_refl.
Qed.

(** What it takes for the v1 loop body to write a statement. *)
Lemma v1_in_do_row sector_map scenario_map ws ycs row_idx row i :
  row = row_cells ws row_idx ->
  In i (V1.do_row sector_map scenario_map ws ycs row_idx) ->
  exists sector scenario col_idx year,
    dict_get sector_map (V1.field row 7 VNone) = Some sector
    /\ V1.dict_get_or_key scenario_map (V1.field row 1 VNone) = VStr scenario
    /\ (exists k, scenario_map !! k = Some scenario)
    /\ In (col_idx, year) ycs
    /\ i = {| ins_scenario := scenario;
              ins_sector := sector;
              ins_region := V1.field row 3 (VStr "World");
              ins_metric_type :=
                VStr (V1.metric_type_of (V1.field row 4 VNone));
              ins_unit := V1.field row 5 VNone;
              ins_year := year;
              ins_value := nth col_idx row VNone;
              ins_data_source := V1.data_source;
              ins_on_conflict_do_nothing := None |}
    /\ is_not_none (nth col_idx row VNone) = true
    /\ is_int_or_float (nth col_idx row VNone) = true
    /\ ne_zero (nth col_idx row VNone) = true.
Proof.
  intros -> H. unfold V1.do_row in H. cbv zeta in H.
  destruct (falsy _ || negb (truthy _) || negb (V1.in_values _ _)) eqn:E;
    [contradiction|].
  apply orb_false_elim in E as [E Hval]. apply orb_false_elim in E as [_ _].
  apply negb_false_iff in Hval.
  destruct (dict_get sector_map _) as [sector|] eqn:Hsec; [|contradiction].
  destruct (V1.dict_get_or_key scenario_map _) as [|scenario| | | | | | |] eqn:Hscen;
    try contradiction.
  apply in_flat_map in H as ([col_idx year] & Hyc & Hin).
  apply v1_in_emit_cell in Hin as (-> & _ & H1 & H2 & H3).
  apply v1_in_values in Hval as (s & k & [= ->] & Hk).
  exists sector, s, col_idx, year.
  repeat split; try assumption. exists k. exact Hk.
Qed.

(** Every statement of a v1 run, traced back to its row and year column. *)
Lemma v1_emitted_inv wb i :
  In i (V1.emitted (V1.extract_pathways_from_excel wb)) ->
  exists ws row_idx col_idx year,
    wb !! "Database" = Some ws
    /\ (2 <= row_idx <= max_row ws)%nat
    /\ In (col_idx, year) (V1.year_columns ws)
    /\ (exists k, V1.sector_map !! k = Some (ins_sector i))
    /\ (exists k, V1.scenario_map !! k = Some (ins_scenario i))
    /\ ins_year i = year
    /\ ins_value i = nth col_idx (row_cells ws row_idx) VNone
    /\ ins_on_conflict_do_nothing i = None
    /\ is_not_none (ins_value i) = true
    /\ is_int_or_float (ins_value i) = true
    /\ ne_zero (ins_value i) = true.
Proof.
  unfold V1.extract_pathways_from_excel, V1.extract_with.
  destruct (wb !! "Database") as [ws|] eqn:Hws; [|intros []].
  simpl. unfold V1.row_loop. rewrite v1_fold_statements. simpl.
  intros H. apply in_flat_map in H as (row_idx & Hr & Hin).
  apply in_seq in Hr.
  apply (v1_in_do_row _ _ _ _ _ _ _ eq_refl) in Hin
    as (sector & scenario & col_idx & year & Hsec & _ & Hscen & Hyc & -> & Hv).
  exists ws, row_idx, col_idx, year. simpl.
  repeat split; try assumption; try apply Hv; try lia.
  destruct (V1.field _ 7 VNone); try discriminate.
  eexists. exact Hsec.
Qed.

(** C8.  Every statement a run writes, in either script, has its scenario
    and its sector among the values of the script's two mappings, a value
    that is not [None], is an [int] or a [float] ([bool] included) and
    differs from zero, and a year between 2014 and 2050 that is the year of
    one of the scanned columns.  For a cell that is [None], is no number or
    equals zero, the cell step of either script writes nothing. *)
Theorem emitted_records_invariant (wb : workbook) :
  (forall i,
      In i (V2.emitted (V2.extract_pathways_from_excel wb)) ->
      (exists raw, V2.scenario_map !! raw = Some (ins_scenario i))
      /\ (exists raw, V2.sector_map !! raw = Some (ins_sector i))
      /\ ins_value i <> VNone
      /\ is_int_or_float (ins_value i) = true
      /\ ne_zero (ins_value i) = true
      /\ 2014 <= ins_year i <= 2050
      /\ exists ws col,
           wb !! "Database" = Some ws
           /\ In (col, ins_year i) (V2.year_columns ws))
  /\ (forall i,
        In i (V1.emitted (V1.extract_pathways_from_excel wb)) ->
        (exists raw, V1.scenario_map !! raw = Some (ins_scenario i))
        /\ (exists raw, V1.sector_map !! raw = Some (ins_sector i))
        /\ ins_value i <> VNone
        /\ is_int_or_float (ins_value i) = true
        /\ ne_zero (ins_value i) = true
        /\ 2014 <= ins_year i <= 2050
        /\ exists ws col,
             wb !! "Database" = Some ws
             /\ In (col, ins_year i) (V1.year_columns ws))
  /\ (forall ws row_idx scenario sector region metric_type unit col year,
        cell ws row_idx col = VNone
        \/ is_int_or_float (cell ws row_idx col) = false
        \/ ne_zero (cell ws row_idx col) = false ->
        V2.emit_cell ws row_idx scenario sector region metric_type unit
          (col, year) = [])
  /\ (forall row scenario sector region metric_type unit col year,
        nth col row VNone = VNone
        \/ is_int_or_float (nth col row VNone) = false
        \/ ne_zero (nth col row VNone) = false ->
        V1.emit_cell row scenario sector region metric_type unit (col, year)
        = []).
Proof.
  split; [|split; [|split]].
  - intros i Hi.
    apply v2_emitted_inv in Hi
      as (ws & r & c & y & sec & scen & Hws & _ & Hyc & Hsec & Hscen & _
          & -> & H1 & H2 & H3).
    simpl. repeat split; try assumption.
    + destruct (cell ws r 2); try discriminate. eexists. exact Hscen.
    + destruct (cell ws r 8); try discriminate. eexists. exact Hsec.
    + intros E. rewrite E in H1. discriminate.
    + eapply v2_year_in_range. exact Hyc.
    + eapply v2_year_in_range. exact Hyc.
    + exists ws, c. split; assumption.
  - intros i Hi.
    apply v1_emitted_inv in Hi
      as (ws & r & c & y & Hws & _ & Hyc & Hsec & Hscen & Hy & _ & _
          & H1 & H2 & H3).
    subst y. repeat split; try assumption.
    + intros E. rewrite E in H1. discriminate.
    + eapply v1_year_in_range. exact Hyc.
    + eapply v1_year_in_range. exact Hyc.
    + exists ws, c. split; assumption.
  - intros * H. unfold V2.emit_cell.
    destruct H as [-> |[-> | ->]]; try reflexivity.
    + rewrite andb_false_r. reflexivity.
    + rewrite andb_false_r. reflexivity.
  - intros * H. unfold V1.emit_cell.
    destruct (col <? length row)%nat; [|reflexivity].
    destruct H as [-> |[-> | ->]]; try reflexivity.
    + rewrite andb_false_r. reflexivity.
    + rewrite andb_false_r. reflexivity.
Qed.

(** ** Where the v1 script differs from the v2 script

    The properties C1, C3, C4, C6, C7 and C9 above are those of the v2
    script.  The older script departs from each of them, as follows. *)

(** No statement of a v1 run has a conflict clause. *)
Lemma v1_statements_have_no_clause wb :
  Forall (fun i => ins_on_conflict_do_nothing i = None)
         (V1.emitted (V1.extract_pathways_from_excel wb)).
Proof.
  apply List.Forall_forall. intros i Hi.
  apply v1_emitted_inv in Hi
    as (ws & r & c & y & _ & _ & _ & _ & _ & _ & _ & H & _).
  exact H.
Qed.

(** On the example sheet, whose year headers are strings, v1 finds no year
    column and writes nothing, and ends normally.  With numeric headers it
    writes the example record, as a plain INSERT; for the row that follows
    it takes the canonical label "SBTi_1.5C" for a scenario although it is
    no key of the mapping, keeps the empty region as [None], turns the
    metric label "Heat" into "Activity", and reads the header 2021.5 as the
    year 2021.  Run twice, its statements double the table. *)
Lemma v1_on_the_examples (py_str : pyval -> string) :
  V1.extract_pathways_from_excel example_workbook
  = Completed {| V1.rep_statements := [];
                 V1.rep_year_columns := [];
                 V1.rep_row_count := 0 |}
  /\ V1.extract_pathways_from_excel numeric_workbook
     = Completed
         {| V1.rep_statements :=
              [ example_record "IEA Database Sheet" None;
                {| ins_scenario := "SBTi_1.5C";
                   ins_sector := "cement";
                   ins_region := VNone;
                   ins_metric_type := VStr "Activity";
                   ins_unit := VStr "MtCO2";
                   ins_year := 2021;
                   ins_value := VBool true;
                   ins_data_source := "IEA Database Sheet";
                   ins_on_conflict_do_nothing := None |} ];
            V1.rep_year_columns := [(8%nat, 2020); (9%nat, 2021)];
            V1.rep_row_count := 2 |}
  /\ ~ is_key V1.scenario_map (VStr "SBTi_1.5C")
  /\ V1.metric_type_of (VStr "Heat") = "Activity"
  /\ V1.metric_type_of VNone = "Activity"
  /\ (let stmts := V1.emitted (V1.extract_pathways_from_excel numeric_workbook) in
      length (exec_all py_str stmts []) = 2%nat
      /\ length (exec_all py_str (stmts ++ stmts) []) = 4%nat).
Proof.
  split; [vm_compute; reflexivity|].
  split; [vm_compute; reflexivity|].
  split; [apply dict_get_not_key; reflexivity|].
  repeat split.
Qed.

(** A row whose sector label is no key of the v1 sector mapping writes
    nothing in v1 either; v1 keeps no count of such rows. *)
Lemma v1_unmapped_sector_no_statement ws ycs row_idx :
  ~ is_key V1.sector_map (V1.field (row_cells ws row_idx) 7 VNone) ->
  V1.do_row V1.sector_map V1.scenario_map ws ycs row_idx = [].
Proof.
  intros H. apply dict_get_not_key in H. unfold V1.do_row.
  rewrite H. reflexivity.
Qed.

(** In v1 too a cell holding [True] is written and [False] is not. *)
Lemma v1_boolean_cells row scenario sector region metric_type unit col year :
  (col < length row)%nat ->
  (nth col row VNone = VBool true ->
   exists i,
     V1.emit_cell row scenario sector region metric_type unit (col, year) = [i]
     /\ ins_year i = year /\ ins_value i = VBool true)
  /\ (nth col row VNone = VBool false ->
      V1.emit_cell row scenario sector region metric_type unit (col, year) = []).
Proof.
  intros Hlt. apply Nat.ltb_lt in Hlt. unfold V1.emit_cell. rewrite Hlt.
  split; intros ->; simpl; [|reflexivity].
  eexists. repeat split.
Qed.

(** * Further properties of the scripts *)

(** ** The counters of a v2 run *)

Section V2Counters.

Variable ws : worksheet.
Variable ycs : list (nat * Z).

Local Abbreviation do_row := (V2.do_row V2.sector_map V2.scenario_map ws ycs).
Local Abbreviation row_statements :=
  (V2.row_statements V2.sector_map V2.scenario_map ws ycs).
Local Abbreviation step := (V2.step V2.sector_map V2.scenario_map ws ycs).
Local Abbreviation row_loop := (V2.row_loop V2.sector_map V2.scenario_map ws ycs).

Lemma v2_step_processed st row_idx :
  V2.processed_rows (step st row_idx)
  = if (0 <? length (row_statements row_idx))%nat
    then S (V2.processed_rows st) else V2.processed_rows st.
Proof.
  unfold V2.step, V2.row_statements.
  destruct (V2.do_row _ _ _ _ _); reflexivity.
Qed.

Lemma v2_fold_skipped rows : forall st,
  V2.skipped_rows (fold_left step rows st)
  = (V2.skipped_rows st
     + length (List.filter
                 (fun r => unmapped V2.sector_map (cell ws r 8)
                           || unmapped V2.scenario_map (cell ws r 2))
                 rows))%nat.
Proof.
  induction rows as [|r rows IH]; intros st; simpl; [lia|].
  rewrite IH, v2_step_skipped. unfold unmapped.
  pose proof (v2_do_row_skipped ws ycs r) as Hs.
  destruct (dict_get V2.sector_map (cell ws r 8)) as [x|];
    destruct (dict_get V2.scenario_map (cell ws r 2)) as [y|]; simpl.
  - destruct (V2.do_row _ _ _ _ r); try lia.
    exfalso. destruct Hs as [Hs _].
    destruct (Hs eq_refl); discriminate.
  - rewrite (proj2 Hs) by (right; reflexivity). lia.
  - rewrite (proj2 Hs) by (left; reflexivity). lia.
  - rewrite (proj2 Hs) by (left; reflexivity). lia.
Qed.

Lemma v2_fold_processed rows : forall st,
  V2.processed_rows (fold_left step rows st)
  = (V2.processed_rows st
     + length (List.filter
                 (fun r => (0 <? length (row_statements r))%nat) rows))%nat.
Proof.
  induction rows as [|r rows IH]; intros st; simpl; [lia|].
  rewrite IH, v2_step_processed.
  destruct (0 <? length (row_statements r))%nat; simpl; lia.
Qed.

End V2Counters.

(** X1.  At the end of the v2 row loop [skipped_rows] is the number of data
    rows whose sector label or scenario label is no key of its mapping. *)
Theorem v2_skipped_rows_count (ws : worksheet) (ycs : list (nat * Z)) :
  V2.skipped_rows (V2.row_loop V2.sector_map V2.scenario_map ws ycs)
  = length (List.filter
              (fun r => unmapped V2.sector_map (cell ws r 8)
                        || unmapped V2.scenario_map (cell ws r 2))
              (data_rows ws)).
Proof.
  unfold V2.row_loop. rewrite v2_fold_skipped. reflexivity.
Qed.

Lemma v2_emit_cell_length ws row_idx scenario sector region metric_type unit yc :
  (length (V2.emit_cell ws row_idx scenario sector region metric_type unit yc)
   <= 1)%nat.
Proof.
  destruct yc as [col year]. unfold V2.emit_cell.
  destruct (_ && _ && _); simpl; lia.
Qed.

Lemma flat_map_length_le {A B : Type} (f : A -> list B) (l : list A) :
  (forall a, length (f a) <= 1)%nat ->
  (length (flat_map f l) <= length l)%nat.
Proof.
  intros H. induction l as [|a l IH]; simpl; [lia|].
  rewrite length_app. specialize (H a). lia.
Qed.

Lemma v2_row_statements_length sector_map scenario_map ws ycs row_idx :
  (length (V2.row_statements sector_map scenario_map ws ycs row_idx)
   <= length ycs)%nat.
Proof.
  unfold V2.row_statements.
  destruct (V2.do_row _ _ _ _ _) as [| |stmts] eqn:E; simpl; try lia.
  apply v2_do_row_walked in E as (? & ? & _ & _ & _ & _ & _ & ->).
  apply flat_map_length_le. intros yc. apply v2_emit_cell_length.
Qed.

Lemma v2_unmapped_row_statements ws ycs row_idx :
  unmapped V2.sector_map (cell ws row_idx 8)
  || unmapped V2.scenario_map (cell ws row_idx 2) = true ->
  V2.row_statements V2.sector_map V2.scenario_map ws ycs row_idx = [].
Proof.
  intros H. unfold V2.row_statements.
  rewrite (proj2 (v2_do_row_skipped ws ycs row_idx)); [reflexivity|].
  unfold unmapped in H. apply orb_true_iff in H.
  destruct H as [H|H]; [left|right];
    destruct (dict_get _ _); try reflexivity; discriminate.
Qed.

(** Sums of row contributions against the number of contributing rows. *)
Lemma count_and_sum (f : nat -> nat) (skip : nat -> bool) (n : nat)
    (rows : list nat) :
  (forall r, f r <= n)%nat ->
  (forall r, skip r = true -> f r = 0%nat) ->
  let processed := length (List.filter (fun r => (0 <? f r)%nat) rows) in
  let skipped := length (List.filter skip rows) in
  let total := length (flat_map (fun r => repeat tt (f r)) rows) in
  (processed + skipped <= length rows
   /\ processed <= total /\ total <= processed * n)%nat.
Proof.
  intros Hn Hskip. induction rows as [|r rows IH]; simpl; [lia|].
  rewrite length_app, repeat_length.
  specialize (Hn r). specialize (Hskip r).
  destruct (skip r) eqn:Es.
  - rewrite (Hskip eq_refl). simpl. simpl in IH. lia.
  - destruct (Nat.ltb_spec 0 (f r)); simpl; simpl in IH; nia.
Qed.

Lemma flat_map_length_sum {B : Type} (g : nat -> list B) (rows : list nat) :
  length (flat_map g rows)
  = length (flat_map (fun r => repeat tt (length (g r))) rows).
Proof.
  induction rows as [|r rows IH]; simpl; [reflexivity|].
  rewrite !length_app, repeat_length, IH. reflexivity.
Qed.

(** X2.  At the end of the v2 row loop [processed_rows] is the number of
    data rows that wrote at least one statement. *)
Theorem v2_processed_rows_count (ws : worksheet) (ycs : list (nat * Z)) :
  V2.processed_rows (V2.row_loop V2.sector_map V2.scenario_map ws ycs)
  = length
      (List.filter
         (fun r =>
            (0 <? length (V2.row_statements V2.sector_map V2.scenario_map
                            ws ycs r))%nat)
         (data_rows ws)).
Proof.
  unfold V2.row_loop. rewrite v2_fold_processed. reflexivity.
Qed.

(** X3.  The three figures of the v2 summary bound one another: no row is
    both processed and skipped, every processed row wrote at least one
    statement, and no row wrote more statements than there are year
    columns. *)
Theorem v2_summary_bounds (ws : worksheet) (ycs : list (nat * Z)) :
  let st := V2.row_loop V2.sector_map V2.scenario_map ws ycs in
  (V2.processed_rows st + V2.skipped_rows st <= max_row ws - 1
   /\ V2.processed_rows st <= length (V2.sql_statements st)
   /\ length (V2.sql_statements st) <= V2.processed_rows st * length ycs)%nat.
Proof.
  intros st. subst st. rewrite v2_row_loop_statements. unfold V2.row_loop.
  rewrite v2_fold_processed, v2_fold_skipped, flat_map_length_sum. simpl.
  pose proof (count_and_sum
    (fun r => length (V2.row_statements V2.sector_map V2.scenario_map ws ycs r))
    (fun r => unmapped V2.sector_map (cell ws r 8)
              || unmapped V2.scenario_map (cell ws r 2))
    (length ycs) (seq 2 (max_row ws - 1))) as H.
  simpl in H. rewrite length_seq in H. apply H.
  - intros r. apply v2_row_statements_length.
  - intros r Hr. rewrite v2_unmapped_row_statements by exact Hr. reflexivity.
Qed.

(** X4.  A row whose flow cell is not the string "Emissions" writes nothing
    in v2; when both its labels are mapped the loop state is left as it was,
    so the row is counted neither as skipped nor as processed. *)
Theorem v2_other_flows_dropped (ws : worksheet) (ycs : list (nat * Z))
    (st : V2.state) (row_idx : nat) :
  cell ws row_idx 5 <> VStr "Emissions" ->
  V2.row_statements V2.sector_map V2.scenario_map ws ycs row_idx = []
  /\ (is_key V2.sector_map (cell ws row_idx 8) ->
      is_key V2.scenario_map (cell ws row_idx 2) ->
      V2.step V2.sector_map V2.scenario_map ws ycs st row_idx = st).
Proof.
  intros Hflow.
  assert (forall stmts,
    V2.do_row V2.sector_map V2.scenario_map ws ycs row_idx
    <> V2.Walked stmts) as Hnw.
  { intros stmts E.
    apply v2_do_row_walked in E as (? & ? & _ & _ & _ & _ & Hm & _).
    apply Hflow. unfold V2.metric_type_of, in_strs in Hm.
    destruct (cell ws row_idx 5) as [|s| | | | | | |]; try discriminate.
    simpl in Hm. destruct (String.eqb_spec s "Emissions") as [->|_];
      [reflexivity|].
    destruct (String.eqb s "Electricity" || (String.eqb s "Activity" || false));
      [discriminate|].
    injection Hm as ->. reflexivity. }
  split.
  - unfold V2.row_statements.
    destruct (V2.do_row _ _ _ _ _) as [| |stmts] eqn:E; try reflexivity.
    exfalso. exact (Hnw stmts eq_refl).
  - intros Hsec Hscen. unfold V2.step.
    destruct (V2.do_row _ _ _ _ _) as [| |stmts] eqn:E.
    + exfalso. apply v2_do_row_skipped in E.
      destruct E as [E|E]; apply dict_get_not_key in E; contradiction.
    + reflexivity.
    + exfalso. exact (Hnw stmts eq_refl).
Qed.

(** The "Electricity" row of a sheet: mapped labels, usable cells, nothing
    written and nothing counted. *)
Lemma v2_other_flows_dropped_witness :
  V2.row_statements V2.sector_map V2.scenario_map sheet_with_activity
    (V2.year_columns sheet_with_activity) 2 = []
  /\ V2.step V2.sector_map V2.scenario_map sheet_with_activity
       (V2.year_columns sheet_with_activity) V2.init 2 = V2.init.
Proof.
  destruct (v2_other_flows_dropped sheet_with_activity
              (V2.year_columns sheet_with_activity) V2.init 2) as [H1 H2].
  - discriminate.
  - split; [exact H1|].
    apply H2; apply dict_get_is_key; eexists; reflexivity.
Defined.

(** The cell values that [or] replaces: [None], [''], the numbers 0 and 0.0
    (also -0.0), [False] and [timedelta(0)]. *)
Lemma truthy_false_iff (v : pyval) :
  truthy v = false
  <-> v = VNone \/ v = VStr "" \/ v = VInt 0
      \/ (exists x, v = VFloat x /\ (x =? 0)%float = true)
      \/ v = VBool false \/ v = VTimedelta 0.
Proof.
  split.
  - destruct v as [|s|n|x|b|t|t|t|t]; simpl; intros H; try discriminate.
    + left. reflexivity.
    + right. left. apply negb_false_iff, String.eqb_eq in H. subst s.
      reflexivity.
    + right. right. left. apply negb_false_iff, Z.eqb_eq in H. subst n.
      reflexivity.
    + right. right. right. left. exists x. split; [reflexivity|].
      apply negb_false_iff in H. exact H.
    + right. right. right. right. left. subst b. reflexivity.
    + right. right. right. right. right.
      apply negb_false_iff, Z.eqb_eq in H. subst t. reflexivity.
  - intros [-> | [-> | [-> | [(x & -> & Hx) | [-> | ->] ] ] ] ]; simpl;
      try reflexivity.
    rewrite Hx. reflexivity.
Qed.

(** X5.  Every statement of a v2 run is an "Emissions" statement with the
    data source 'IEA SBTi Tool v2.4'; its region is never false: a region
    cell that is false ([None], [''], 0, 0.0, [False] or [timedelta(0)], see
    [truthy_false_iff]) is replaced by "World", and a cell that is true is
    kept as it is; its unit is the raw unit cell of its row, whatever that
    is. *)
Theorem v2_statement_fields (wb : workbook) (i : sql_insert) :
  In i (V2.emitted (V2.extract_pathways_from_excel wb)) ->
  ins_metric_type i = VStr "Emissions"
  /\ ins_data_source i = "IEA SBTi Tool v2.4"
  /\ truthy (ins_region i) = true
  /\ exists ws row_idx,
       wb !! "Database" = Some ws
       /\ (2 <= row_idx <= max_row ws)%nat
       /\ ins_unit i = cell ws row_idx 6
       /\ (truthy (cell ws row_idx 4) = true -> ins_region i = cell ws row_idx 4)
       /\ (truthy (cell ws row_idx 4) = false -> ins_region i = VStr "World").
Proof.
  intros Hi.
  apply v2_emitted_inv in Hi
    as (ws & r & c & y & sec & scen & Hws & Hr & _ & _ & _ & _ & -> & _).
  simpl. repeat split.
  - unfold py_or. destruct (truthy (cell ws r 4)) eqn:E; [exact E|reflexivity].
  - exists ws, r. repeat split; try assumption; try apply Hr;
      unfold py_or; intros ->; reflexivity.
Qed.

Lemma v2_statement_fields_witness :
  ins_metric_type (example_record V2.data_source (Some V2.conflict_columns))
  = VStr "Emissions"
  /\ ins_data_source (example_record V2.data_source (Some V2.conflict_columns))
     = "IEA SBTi Tool v2.4"
  /\ truthy (ins_region (example_record V2.data_source (Some V2.conflict_columns)))
     = true
  /\ exists ws row_idx,
       example_workbook !! "Database" = Some ws
       /\ (2 <= row_idx <= max_row ws)%nat
       /\ ins_unit (example_record V2.data_source (Some V2.conflict_columns))
          = cell ws row_idx 6
       /\ (truthy (cell ws row_idx 4) = true ->
           ins_region (example_record V2.data_source (Some V2.conflict_columns))
           = cell ws row_idx 4)
       /\ (truthy (cell ws row_idx 4) = false ->
           ins_region (example_record V2.data_source (Some V2.conflict_columns))
           = VStr "World").
Proof.
  apply (v2_statement_fields example_workbook
           (example_record V2.data_source (Some V2.conflict_columns))).
  vm_compute. left. reflexivity.
Defined.

Lemma v2_emit_cell_years ws row_idx scenario sector region metric_type unit ycs :
  sublist
    (map ins_year
       (flat_map
          (V2.emit_cell ws row_idx scenario sector region metric_type unit)
          ycs))
    (map snd ycs).
Proof.
  induction ycs as [|[col year] ycs IH]; simpl; [constructor|].
  rewrite map_app. unfold V2.emit_cell at 1.
  destruct (_ && _ && _); simpl.
  - apply sublist_skip. exact IH.
  - apply sublist_cons. exact IH.
Qed.

(** X6.  The statements of one row follow the year columns: their years, in
    the order written, are a subsequence of the scanned years in column
    order, so a row writes at most one statement per year column. *)
Theorem v2_row_years_follow_columns (sector_map scenario_map : gmap string string)
    (ws : worksheet) (ycs : list (nat * Z)) (row_idx : nat) :
  sublist
    (map ins_year (V2.row_statements sector_map scenario_map ws ycs row_idx))
    (map snd ycs).
Proof.
  unfold V2.row_statements.
  destruct (V2.do_row _ _ _ _ _) as [| |stmts] eqn:E;
    try apply sublist_nil_l.
  apply v2_do_row_walked in E as (? & ? & _ & _ & _ & _ & _ & ->).
  apply v2_emit_cell_years.
Qed.

(** ** The v2 output file *)

Section V2File.

Local Arguments Nat.modulo : simpl never.

Lemma v2_body_inserts (total : nat) (l : list sql_insert) : forall a,
  file_inserts
    (flat_map
       (fun '(i, sql) =>
          Insert sql
          :: (if ((i + 1) mod 50 =? 0)%nat then [Progress (i + 1) total] else []))
       (combine (seq a (length l)) l))
  = l.
Proof.
  induction l as [|s l IH]; intros a; simpl; [reflexivity|].
  unfold file_inserts in *. simpl. rewrite flat_map_app.
  destruct ((a + 1) mod 50 =? 0)%nat; simpl; rewrite IH; reflexivity.
Qed.

Lemma v2_body_exec py_str (total : nat) (l : list sql_insert) : forall a table,
  exec_items py_str
    (flat_map
       (fun '(i, sql) =>
          Insert sql
          :: (if ((i + 1) mod 50 =? 0)%nat then [Progress (i + 1) total] else []))
       (combine (seq a (length l)) l))
    table
  = exec_all py_str l table.
Proof.
  induction l as [|s l IH]; intros a table; simpl; [reflexivity|].
  unfold exec_items in *. rewrite fold_left_app.
  destruct ((a + 1) mod 50 =? 0)%nat; simpl; rewrite IH; reflexivity.
Qed.

(** A progress comment sits right behind the statement whose number it
    shows. *)
Lemma v2_body_progress (total : nat) (l : list sql_insert) :
  forall a pre k t post,
  flat_map
    (fun '(i, sql) =>
       Insert sql
       :: (if ((i + 1) mod 50 =? 0)%nat then [Progress (i + 1) total] else []))
    (combine (seq a (length l)) l)
  = pre ++ Progress k t :: post ->
  t = total /\ (k mod 50 = 0)%nat /\ k = (a + length (file_inserts pre))%nat
  /\ (a < k <= a + length l)%nat.
Proof.
  induction l as [|s l IH]; intros a pre k t post; simpl.
  - destruct pre; discriminate.
  - destruct pre as [|p pre]; [discriminate|]. simpl. intros [= <- H].
    destruct (Nat.eqb_spec ((a + 1) mod 50) 0) as [E|_].
    + simpl in H. destruct pre as [|p pre].
      * simpl in H. injection H as <- <- _.
        repeat split; simpl; try assumption; lia.
      * simpl in H. injection H as <- H.
        apply IH in H as (-> & Hk & -> & Hr).
        unfold file_inserts in *. simpl. repeat split; try assumption; lia.
    + simpl in H. apply IH in H as (-> & Hk & -> & Hr).
      unfold file_inserts in *. simpl. repeat split; try assumption; lia.
Qed.

(** X7.  The v2 output file holds the emitted statements, all of them, once
    each and in the order they were emitted; a progress comment stands only
    behind a statement whose number is a multiple of 50 and shows that
    number and the total; the one DELETE comes before every statement. *)
Theorem v2_output_file_layout (sql_statements : list sql_insert) :
  file_inserts (v2_output_file sql_statements) = sql_statements
  /\ (forall pre k t post,
        v2_output_file sql_statements = pre ++ Progress k t :: post ->
        t = length sql_statements /\ (0 < k)%nat /\ (k mod 50 = 0)%nat
        /\ length (file_inserts pre) = k)
  /\ (forall pre i post,
        v2_output_file sql_statements = pre ++ Insert i :: post ->
        In DeleteIEA pre /\ ~ In DeleteIEA post).
Proof.
  unfold v2_output_file, V1.enumerate.
  set (body := flat_map _ (combine _ sql_statements)).
  assert (file_inserts body = sql_statements) as Hb
    by apply v2_body_inserts.
  assert (~ In DeleteIEA body) as Hnd.
  { subst body. intros H. apply in_flat_map in H as ([i s] & _ & H).
    simpl in H. destruct H as [H|H]; [discriminate|].
    destruct (_ =? _)%nat; simpl in H; [destruct H as [H|[]]|destruct H];
      discriminate. }
  split; [|split].
  - unfold file_inserts in *. rewrite !flat_map_app, Hb. simpl.
    apply app_nil_r.
  - intros pre k t post H.
    do 11 (destruct pre as [|? pre]; [discriminate|injection H as <- H]).
    simpl. change (flat_map _ pre) with (file_inserts pre).
    assert (exists post', body = pre ++ Progress k t :: post') as [post' Hp].
    { clear - H. revert pre H.
      induction body as [|b body IH]; intros pre H.
      - simpl in H.
        do 7 (destruct pre as [|? pre]; [discriminate|injection H as <- H]).
        destruct pre; discriminate.
      - destruct pre as [|p pre].
        + simpl in H. injection H as -> _. exists body. reflexivity.
        + simpl in H. injection H as <- H.
          apply IH in H as [post' ->]. exists post'. reflexivity. }
    subst body. apply v2_body_progress in Hp as (-> & Hk & -> & Hr).
    repeat split; try assumption; lia.
  - intros pre i post H.
    do 10 (destruct pre as [|? pre]; [discriminate|injection H as <- H]).
    destruct pre as [|? pre]; [discriminate|injection H as <- H].
    split; [simpl; tauto|].
    intros Hin.
    assert (In DeleteIEA (pre ++ Insert i :: post)) as Hin'
      by (apply in_or_app; right; right; exact Hin).
    rewrite <- H in Hin'. apply in_app_or in Hin' as [Hin'|Hin'].
    + exact (Hnd Hin').
    + simpl in Hin'. intuition discriminate.
Qed.

End V2File.

Lemma v2_output_file_exec py_str (stmts : list sql_insert) table :
  exec_items py_str (v2_output_file stmts) table
  = exec_all py_str stmts (exec_delete_iea table).
Proof.
  unfold v2_output_file, V1.enumerate, exec_items.
  rewrite !fold_left_app. simpl.
  apply (v2_body_exec py_str (length stmts) stmts 0).
Qed.

Lemma v2_emitted_rows_deleted py_str wb :
  exec_delete_iea
    (exec_all py_str (V2.emitted (V2.extract_pathways_from_excel wb)) [])
  = [].
Proof.
  assert (Forall (fun r => row_data_source r = V2.data_source)
            (exec_all py_str
               (V2.emitted (V2.extract_pathways_from_excel wb)) [])) as H.
  { apply exec_all_data_source; [|constructor].
    apply List.Forall_forall. intros i Hi.
    apply v2_emitted_inv in Hi
      as (ws & r & c & y & sec & scen & _ & _ & _ & _ & _ & _ & -> & _).
    reflexivity. }
  unfold exec_delete_iea.
  induction H as [|r l Hr _ IH]; [reflexivity|].
  simpl. rewrite Hr. simpl. exact IH.
Qed.

(** X8.  Run against a table, the v2 output file first removes every row
    whose data source contains "IEA" and then applies its statements; the
    remaining rows stay in place.  Hence the file of one run, applied after
    the file of any earlier v2 run, leaves exactly what it leaves on an
    empty table: rows written from an earlier workbook do not survive. *)
Theorem v2_output_file_replaces (py_str : pyval -> string)
    (wb earlier : workbook) (table : list db_row) :
  let file := v2_output_file (V2.emitted (V2.extract_pathways_from_excel wb)) in
  let file' :=
    v2_output_file (V2.emitted (V2.extract_pathways_from_excel earlier)) in
  (exists added,
     exec_items py_str file table = exec_delete_iea table ++ added)
  /\ exec_items py_str file (exec_items py_str file' [])
     = exec_items py_str file [].
Proof.
  intros file file'. subst file file'. split.
  - rewrite v2_output_file_exec. apply exec_all_extends.
  - rewrite !v2_output_file_exec.
    change (exec_delete_iea []) with (@nil db_row).
    rewrite v2_emitted_rows_deleted. reflexivity.
Qed.

(** ** The v1 script: guards that never fire *)

Lemma row_cells_length ws r : length (row_cells ws r) = max_column ws.
Proof. unfold row_cells. rewrite length_map, length_seq. reflexivity. Qed.

Lemma row_cells_nth ws r k :
  (k < max_column ws)%nat -> nth k (row_cells ws r) VNone = cell ws r (S k).
Proof.
  intros H. unfold row_cells.
  rewrite (nth_indep _ VNone (cell ws r 0)) by (rewrite length_map, length_seq; exact H).
  rewrite map_nth. rewrite seq_nth by exact H. reflexivity.
Qed.

Lemma v1_field_present ws r k default :
  (k < max_column ws)%nat ->
  V1.field (row_cells ws r) k default = cell ws r (S k).
Proof.
  intros H. unfold V1.field. rewrite row_cells_length.
  apply Nat.ltb_lt in H as H'. rewrite H'. apply row_cells_nth. exact H.
Qed.

Lemma v1_field_absent ws r k default :
  (max_column ws <= k)%nat -> V1.field (row_cells ws r) k default = default.
Proof.
  intros H. unfold V1.field. rewrite row_cells_length.
  apply Nat.ltb_ge in H. rewrite H. reflexivity.
Qed.

(** X9.  In v1 the test [col_idx < len(row)] never passes over a year column:
    every scanned index lies within every row, and the cell read for it is
    the cell of that column in the row. *)
Theorem v1_bounds_guard_never_fires (ws : worksheet) (row_idx col_idx : nat)
    (year : Z) :
  In (col_idx, year) (V1.year_columns ws) ->
  (col_idx < length (row_cells ws row_idx))%nat
  /\ nth col_idx (row_cells ws row_idx) VNone = cell ws row_idx (S col_idx).
Proof.
  intros H. apply v1_year_columns_in in H as [H _].
  rewrite row_cells_length. split; [exact H|]. apply row_cells_nth. exact H.
Qed.

Lemma v1_bounds_guard_never_fires_witness :
  (8 < length (row_cells (sheet_of_rows [numeric_header; example_row]) 2))%nat
  /\ nth 8 (row_cells (sheet_of_rows [numeric_header; example_row]) 2) VNone
     = cell (sheet_of_rows [numeric_header; example_row]) 2 9.
Proof.
  apply (v1_bounds_guard_never_fires
           (sheet_of_rows [numeric_header; example_row]) 2 8 2020).
  vm_compute. left. reflexivity.
Defined.

(** X10.  Every statement of a v1 run comes from a sheet of at least eight
    columns and takes its region, unit and value from the raw cells of its
    row: the fallback region "World" (used only when a row has fewer than
    four cells) never reaches a statement, and an empty region cell is
    written as [None].  The metric type is "Emissions" or "Activity" and the
    data source 'IEA Database Sheet'. *)
Theorem v1_statement_fields (wb : workbook) (i : sql_insert) :
  In i (V1.emitted (V1.extract_pathways_from_excel wb)) ->
  exists ws row_idx col_idx,
    wb !! "Database" = Some ws
    /\ (2 <= row_idx <= max_row ws)%nat
    /\ (8 <= max_column ws)%nat
    /\ In (col_idx, ins_year i) (V1.year_columns ws)
    /\ ins_region i = cell ws row_idx 4
    /\ ins_unit i = cell ws row_idx 6
    /\ ins_value i = cell ws row_idx (S col_idx)
    /\ (ins_metric_type i = VStr "Emissions"
        \/ ins_metric_type i = VStr "Activity")
    /\ ins_data_source i = "IEA Database Sheet".
Proof.
  unfold V1.extract_pathways_from_excel, V1.extract_with.
  destruct (wb !! "Database") as [ws|] eqn:Hws; [|intros []].
  simpl. unfold V1.row_loop. rewrite v1_fold_statements. simpl.
  intros H. apply in_flat_map in H as (row_idx & Hr & Hin).
  apply in_seq in Hr.
  apply (v1_in_do_row _ _ _ _ _ _ _ eq_refl) in Hin
    as (sector & scenario & col_idx & year & Hsec & _ & _ & Hyc & -> & _).
  assert (8 <= max_column ws)%nat as Hcols.
  { destruct (Nat.le_gt_cases 8 (max_column ws)) as [Hle|Hgt]; [exact Hle|].
    rewrite v1_field_absent in Hsec by lia. discriminate. }
  exists ws, row_idx, col_idx. simpl.
  repeat split; try assumption; try lia.
  - apply v1_field_present. lia.
  - apply v1_field_present. lia.
  - apply row_cells_nth. apply v1_year_columns_in in Hyc as [Hyc _]. exact Hyc.
  - unfold V1.metric_type_of. destruct (eq_str _ _); [left|right]; reflexivity.
Qed.

Lemma v1_statement_fields_witness :
  exists ws row_idx col_idx,
    numeric_workbook !! "Database" = Some ws
    /\ (2 <= row_idx <= max_row ws)%nat
    /\ (8 <= max_column ws)%nat
    /\ In (col_idx, ins_year (example_record "IEA Database Sheet" None))
          (V1.year_columns ws)
    /\ ins_region (example_record "IEA Database Sheet" None) = cell ws row_idx 4
    /\ ins_unit (example_record "IEA Database Sheet" None) = cell ws row_idx 6
    /\ ins_value (example_record "IEA Database Sheet" None)
       = cell ws row_idx (S col_idx)
    /\ (ins_metric_type (example_record "IEA Database Sheet" None)
        = VStr "Emissions"
        \/ ins_metric_type (example_record "IEA Database Sheet" None)
           = VStr "Activity")
    /\ ins_data_source (example_record "IEA Database Sheet" None)
       = "IEA Database Sheet".
Proof.
  apply (v1_statement_fields numeric_workbook
           (example_record "IEA Database Sheet" None)).
  vm_compute. left. reflexivity.
Defined.

(** ** The forecast endpoint *)

Lemma forecast_tail_length {A : Type} (n : Z) (rows : list A) :
  0 <= n -> (length (Forecast.tail n rows) <= Z.to_nat n)%nat.
Proof.
  intros Hn. unfold Forecast.tail.
  destruct (n =? 0) eqn:E0; [simpl; lia|].
  destruct (0 <? n) eqn:E1.
  - rewrite length_skipn. lia.
  - apply Z.eqb_neq in E0. apply Z.ltb_ge in E1. lia.
Qed.

Section ForecastEndpoint.

Variable fit_and_predict :
  list Forecast.HistoricalDataPoint -> Z -> string + Forecast.forecast_frame.
Variable mean std : list float -> float.
Variable utcnow : string.
Variable str_http : Z -> string -> string.

Local Abbreviation predict :=
  (Forecast.predict fit_and_predict mean std utcnow str_http).

Lemma forecast_try_body_short (request : Forecast.ForecastRequest) :
  (length (Forecast.historicalData request) < 12)%nat ->
  Forecast.try_body fit_and_predict mean std utcnow request =
  inl (Forecast.HTTPException 400
         "Need at least 12 months of historical data for reliable forecasting").
Proof.
  intros H. unfold Forecast.try_body.
  apply Nat.ltb_lt in H. rewrite H. reflexivity.
Qed.

(** X11.  A request with fewer than twelve historical points is not answered
    with the status 400 that the validation raises: the exception is raised
    inside the [try], caught by [except Exception] and sent as status 500,
    with the text of the 400 exception inside the detail.  The forecaster is
    not called. *)
Theorem predict_short_history_is_500 (request : Forecast.ForecastRequest) :
  (length (Forecast.historicalData request) < 12)%nat ->
  predict request =
  inl (Forecast.HTTPException 500
         ("Forecasting failed: " ++
          str_http 400
            "Need at least 12 months of historical data for reliable forecasting")%string).
Proof.
  intros H. unfold Forecast.predict.
  rewrite (forecast_try_body_short request H). reflexivity.
Qed.

(** X13.  A response is only produced for at least twelve historical points,
    after the forecaster returned a frame; the three series have the same
    length, which is at most the horizon when the horizon is not negative
    and zero when it is zero; the method is prophet and the metadata repeat
    the number of points, the horizon, the domain and the organization of
    the request. *)
Theorem predict_response_shape (request : Forecast.ForecastRequest)
    (response : Forecast.ForecastResponse) :
  predict request = inr response ->
  (12 <= length (Forecast.historicalData request))%nat /\
  (exists forecast,
      fit_and_predict (Forecast.historicalData request)
                      (Forecast.monthsToForecast request) = inr forecast /\
      Forecast.forecasted response =
      map Forecast.yhat
          (Forecast.tail (Forecast.monthsToForecast request)
                         (Forecast.frame_rows forecast))) /\
  length (Forecast.confidence_lower response) =
  length (Forecast.forecasted response) /\
  length (Forecast.confidence_upper response) =
  length (Forecast.forecasted response) /\
  (0 <= Forecast.monthsToForecast request ->
   (length (Forecast.forecasted response) <=
    Z.to_nat (Forecast.monthsToForecast request))%nat) /\
  Forecast.method response = "prophet" /\
  Forecast.meta_data_points response =
  length (Forecast.historicalData request) /\
  Forecast.meta_forecast_horizon response = Forecast.monthsToForecast request /\
  Forecast.meta_domain response = Forecast.domain request /\
  Forecast.meta_organization_id response = Forecast.organizationId request.
Proof.
  unfold Forecast.predict, Forecast.try_body.
  destruct (length (Forecast.historicalData request) <? 12)%nat eqn:Hlen;
    [discriminate|].
  apply Nat.ltb_ge in Hlen.
  destruct (fit_and_predict _ _) as [text | forecast] eqn:Hfit; [discriminate|].
  destruct (last (Forecast.frame_rows forecast)) as [final|]; [|discriminate].
  intros H. injection H as <-. simpl.
  split; [exact Hlen|].
  split; [exists forecast; split; reflexivity|].
  rewrite !length_map.
  repeat split; auto.
  intros Hn. apply forecast_tail_length. exact Hn.
Qed.

End ForecastEndpoint.

Lemma predict_short_history_is_500_witness :
  (length (Forecast.historicalData short_request) < 12)%nat /\
  Forecast.predict sample_forecaster (fun _ => 0%float) (fun _ => 0%float)
                   "2025-01-01T00:00:00" (fun _ detail => detail)
                   short_request =
  inl (Forecast.HTTPException 500
         "Forecasting failed: Need at least 12 months of historical data for reliable forecasting").
Proof.
  split; [simpl; lia|].
  apply (predict_short_history_is_500 sample_forecaster (fun _ => 0%float)
           (fun _ => 0%float) "2025-01-01T00:00:00" (fun _ detail => detail)
           short_request).
  simpl. lia.
Defined.

Lemma predict_response_shape_witness :
  exists response,
    Forecast.predict sample_forecaster (fun _ => 0%float) (fun _ => 0%float)
                     "2025-01-01T00:00:00" (fun _ detail => detail)
                     long_request = inr response /\
    Forecast.forecasted response = [2%float; 3%float] /\
    Forecast.meta_data_points response = 12%nat.
Proof.
  eexists. split; [reflexivity|].
  split; [reflexivity|].
  apply (predict_response_shape sample_forecaster (fun _ => 0%float)
           (fun _ => 0%float) "2025-01-01T00:00:00" (fun _ detail => detail)
           long_request).
  reflexivity.
Defined.

(** ** The compatibility wrapper *)

Lemma retail_bind_inr {A B : Type} (m : Retail.error + A)
    (f : A -> Retail.error + B) (b : B) :
  Retail.bind m f = inr b -> exists a, m = inr a /\ f a = inr b.
Proof.
  destruct m as [e | a]; simpl; [discriminate|].
  intros H. exists a. split; [reflexivity | exact H].
Qed.

Lemma retail_get_inr (v out : Retail.json) (key : string) :
  Retail.get v key = inr out ->
  exists entries,
    v = Retail.JObj entries /\
    out = match Retail.lookup key entries with
          | Some x => x
          | None => Retail.JNull
          end.
Proof.
  destruct v; simpl; try discriminate.
  intros H. injection H as <-. eexists. split; reflexivity.
Qed.

Lemma retail_item_inr (v out : Retail.json) (key : string) :
  Retail.item v key = inr out ->
  exists entries,
    v = Retail.JObj entries /\ Retail.lookup key entries = Some out.
Proof.
  destruct v; simpl; try discriminate.
  destruct (Retail.lookup key entries) eqn:E; [|discriminate].
  intros H. injection H as <-. eexists. split; [reflexivity | exact E].
Qed.

(** The three ways [get_analytics] returns. *)
Lemma retail_get_analytics_inr (reply result : Retail.json) :
  Retail.get_analytics reply = inr result ->
  exists entries,
    reply = Retail.JObj entries /\
    ((result = reply /\
      (match Retail.lookup "success" entries with
       | Some s => Retail.truthy s
       | None => false
       end &&
       match Retail.lookup "data" entries with
       | Some d => Retail.truthy d
       | None => false
       end = false)) \/
     (exists s,
         Retail.lookup "success" entries = Some s /\
         Retail.truthy s = true /\
         Retail.lookup "data" entries = Some result /\
         Retail.truthy result = true)).
Proof.
  unfold Retail.get_analytics.
  destruct reply as [| | | | | |entries]; simpl; try discriminate.
  intros H. exists entries. split; [reflexivity|].
  destruct (Retail.lookup "success" entries) as [s|] eqn:Es; simpl in H |- *.
  2: { injection H as <-. left. split; reflexivity. }
  destruct (Retail.truthy s) eqn:Ts; simpl in H |- *.
  2: { injection H as <-. left. split; reflexivity. }
  destruct (Retail.lookup "data" entries) as [d|] eqn:Ed; simpl in H |- *.
  2: { injection H as <-. left. split; reflexivity. }
  destruct (Retail.truthy d) eqn:Td; simpl in H |- *.
  2: { injection H as <-. left. split; reflexivity. }
  unfold Retail._transform_analytics_response in H.
  injection H as <-. right. exists s. repeat split; assumption.
Qed.

Section RetailCompatibilityDB.

Variable json_dumps : Retail.json -> string.

Local Abbreviation get_analytics_results :=
  (Retail.get_analytics_results json_dumps).

(** X14.  [CompatibilityDB.get_analytics_results] returns a row only for a
    reply that carries the success envelope twice: [get_analytics] has
    already taken [reply['data']] out of the first envelope, and the method
    then asks that value again for a true [success] and a true [data].  The
    row is read from [reply['data']['data']]. *)
Theorem get_analytics_results_needs_nested_envelope
    (reply : Retail.json) (row : Retail.analytics_row) :
  get_analytics_results reply = inr (Some row) ->
  exists outer s inner s' data,
    reply = Retail.JObj outer /\
    Retail.lookup "success" outer = Some s /\ Retail.truthy s = true /\
    Retail.lookup "data" outer = Some (Retail.JObj inner) /\
    Retail.lookup "success" inner = Some s' /\ Retail.truthy s' = true /\
    Retail.lookup "data" inner = Some data /\ Retail.truthy data = true /\
    Retail.build_row json_dumps data = inr row /\
    Retail.item data "loja" = inr (Retail.loja row).
Proof.
  unfold Retail.get_analytics_results. intros H.
  apply retail_bind_inr in H as (result & Hga & H).
  apply retail_bind_inr in H as (success & Hs & H).
  apply retail_get_inr in Hs as (inner & -> & ->).
  destruct (Retail.lookup "success" inner) as [s'|] eqn:Es'; [|discriminate].
  destruct (Retail.truthy s') eqn:Ts'; [|discriminate].
  apply retail_bind_inr in H as (d & Hd & H).
  simpl in Hd. injection Hd as <-.
  destruct (Retail.lookup "data" inner) as [data|] eqn:Ed; [|discriminate].
  destruct (Retail.truthy data) eqn:Td; [|discriminate].
  simpl in H. rewrite Ed in H. simpl in H.
  apply retail_bind_inr in H as (row' & Hrow & H).
  injection H as <-.
  assert (Houter : exists outer s,
             reply = Retail.JObj outer /\
             Retail.lookup "success" outer = Some s /\
             Retail.truthy s = true /\
             Retail.lookup "data" outer = Some (Retail.JObj inner)).
  { apply retail_get_analytics_inr in Hga as (outer & -> & [[Heq Hno] | Hyes]).
    - injection Heq as <-. rewrite Es', Ed, Ts', Td in Hno. discriminate.
    - destruct Hyes as (s & Hs & Hts & Hd & _).
      exists outer, s. auto. }
  destruct Houter as (outer & s & -> & Hs & Hts & Hd).
  exists outer, s, inner, s', data.
  repeat split; auto.
  unfold Retail.build_row in Hrow.
  destruct (Retail.item data "loja") as [e | v1]; [discriminate|].
  simpl in Hrow.
  repeat match type of Hrow with
         | Retail.bind ?m _ = inr _ =>
             destruct m; simpl in Hrow; [discriminate|]
         end.
  injection Hrow as <-. reflexivity.
Qed.

(** X15.  For a successful reply in the shape the API documents, an
    envelope whose [data] object holds the analytics themselves and no
    [success] entry, [CompatibilityDB.get_analytics_results] returns
    [None]: the analytics are fetched and then dropped. *)
Theorem get_analytics_results_drops_plain_reply
    (outer inner : list (string * Retail.json)) (s : Retail.json) :
  Retail.lookup "success" outer = Some s ->
  Retail.truthy s = true ->
  Retail.lookup "data" outer = Some (Retail.JObj inner) ->
  inner <> [] ->
  Retail.lookup "success" inner = None ->
  Retail.get_analytics (Retail.JObj outer) = inr (Retail.JObj inner) /\
  get_analytics_results (Retail.JObj outer) = inr None.
Proof.
  intros Hs Hts Hd Hne Hnone.
  assert (Hga : Retail.get_analytics (Retail.JObj outer) =
                inr (Retail.JObj inner)).
  { unfold Retail.get_analytics. simpl. rewrite Hs. simpl. rewrite Hts.
    rewrite Hd. simpl. destruct inner; [contradiction|]. reflexivity. }
  split; [exact Hga|].
  unfold Retail.get_analytics_results. rewrite Hga. simpl.
  rewrite Hnone. reflexivity.
Qed.

(** X16.  When the [data] entry of a successful reply is a true value that
    is not an object (a non-empty list or string, a number), the method
    does not return: [get_analytics] hands that value on and the following
    [result.get] raises AttributeError. *)
Theorem get_analytics_results_non_object_data_raises
    (outer : list (string * Retail.json)) (s d : Retail.json) :
  Retail.lookup "success" outer = Some s ->
  Retail.truthy s = true ->
  Retail.lookup "data" outer = Some d ->
  Retail.truthy d = true ->
  (forall inner, d <> Retail.JObj inner) ->
  get_analytics_results (Retail.JObj outer) = inl Retail.AttributeError.
Proof.
  intros Hs Hts Hd Htd Hobj.
  unfold Retail.get_analytics_results, Retail.get_analytics. simpl.
  rewrite Hs. simpl. rewrite Hts. rewrite Hd. simpl. rewrite Htd.
  simpl. unfold Retail._transform_analytics_response.
  destruct d; try reflexivity.
  exfalso. apply (Hobj entries). reflexivity.
Qed.

(** X17.  A reply whose [success] is missing or false gives [None], and no
    exception, whatever else the object holds. *)
Theorem get_analytics_results_failure_is_none
    (outer : list (string * Retail.json)) :
  match Retail.lookup "success" outer with
  | Some s => Retail.truthy s
  | None => false
  end = false ->
  Retail.get_analytics (Retail.JObj outer) = inr (Retail.JObj outer) /\
  get_analytics_results (Retail.JObj outer) = inr None.
Proof.
  intros H.
  assert (Hga : Retail.get_analytics (Retail.JObj outer) =
                inr (Retail.JObj outer)).
  { unfold Retail.get_analytics. simpl.
    destruct (Retail.lookup "success" outer) as [s|]; simpl in *.
    - rewrite H. reflexivity.
    - reflexivity. }
  split; [exact Hga|].
  unfold Retail.get_analytics_results. rewrite Hga. simpl.
  destruct (Retail.lookup "success" outer) as [s|]; simpl in *.
  - rewrite H. reflexivity.
  - reflexivity.
Qed.

End RetailCompatibilityDB.

Lemma get_analytics_results_needs_nested_envelope_witness :
  Retail.get_analytics_results (fun _ => "[]")
    (envelope (envelope store_analytics)) = inr (Some store_row) /\
  exists outer s inner s' data,
    envelope (envelope store_analytics) = Retail.JObj outer /\
    Retail.lookup "success" outer = Some s /\ Retail.truthy s = true /\
    Retail.lookup "data" outer = Some (Retail.JObj inner) /\
    Retail.lookup "success" inner = Some s' /\ Retail.truthy s' = true /\
    Retail.lookup "data" inner = Some data /\ Retail.truthy data = true /\
    Retail.build_row (fun _ => "[]") data = inr store_row /\
    Retail.item data "loja" = inr (Retail.loja store_row).
Proof.
  split; [reflexivity|].
  apply (get_analytics_results_needs_nested_envelope (fun _ => "[]")
           (envelope (envelope store_analytics)) store_row).
  reflexivity.
Defined.

Lemma get_analytics_results_drops_plain_reply_witness :
  Retail.get_analytics (envelope store_analytics) = inr store_analytics /\
  Retail.get_analytics_results (fun _ => "[]") (envelope store_analytics) =
  inr None.
Proof.
  apply (get_analytics_results_drops_plain_reply (fun _ => "[]")
           [("success", Retail.JBool true); ("data", store_analytics)] _
           (Retail.JBool true)).
  - reflexivity.
  - reflexivity.
  - reflexivity.
  - discriminate.
  - reflexivity.
Defined.

Lemma get_analytics_results_non_object_data_raises_witness :
  Retail.get_analytics_results (fun _ => "[]")
    (envelope (Retail.JArr [store_analytics])) = inl Retail.AttributeError.
Proof.
  apply (get_analytics_results_non_object_data_raises (fun _ => "[]")
           [("success", Retail.JBool true);
            ("data", Retail.JArr [store_analytics])]
           (Retail.JBool true) (Retail.JArr [store_analytics])).
  - reflexivity.
  - reflexivity.
  - reflexivity.
  - reflexivity.
  - intros inner. discriminate.
Defined.

Lemma get_analytics_results_failure_is_none_witness :
  Retail.get_analytics failed_reply = inr failed_reply /\
  Retail.get_analytics_results (fun _ => "[]") failed_reply = inr None.
Proof.
  apply (get_analytics_results_failure_is_none (fun _ => "[]")
           [("success", Retail.JBool false);
            ("error", Retail.JStr "Store not found")]).
  reflexivity.
Defined.
